(** * Announcements router of the High School Management System API

    A shallow embedding of [src/backend/routers/announcements.py]: the five
    endpoints, the two MongoDB collections they use and the date handling
    they rely on ([datetime.strptime], [strftime], [isoformat]), followed by
    the properties of the endpoints. *)

From Stdlib Require Import String Ascii List ZArith Lia Bool.
From stdpp Require Import base option list gmap strings fin_maps.

Local Open Scope string_scope.
Local Open Scope Z_scope.

(** ** Dates *)

Module Date.

(** A [datetime] value: the calendar date and the time of day. *)
Record datetime := mkdatetime {
  year : Z; month : Z; day : Z;
  hour : Z; minute : Z; second : Z; microsecond : Z
}.

Definition is_leap (y : Z) : bool :=
  (y mod 4 =? 0) && (negb (y mod 100 =? 0) || (y mod 400 =? 0)).

Definition days_in_month (y m : Z) : Z :=
  if m =? 2 then (if is_leap y then 29 else 28)
  else if (m =? 4) || (m =? 6) || (m =? 9) || (m =? 11) then 30
  else 31.

Definition is_digit (c : ascii) : bool :=
  (48 <=? Z.of_nat (nat_of_ascii c)) && (Z.of_nat (nat_of_ascii c) <=? 57).

Definition digit_val (c : ascii) : Z := Z.of_nat (nat_of_ascii c) - 48.

(** [c] is a digit between [lo] and [hi], as in the regex class [[lo-hi]]. *)
Definition in_range (lo hi : Z) (c : ascii) : bool :=
  is_digit c && (lo <=? digit_val c) && (digit_val c <=? hi).

Definition is_char (k : string) (c : ascii) : bool :=
  match k with
  | String k0 EmptyString => Ascii.eqb k0 c
  | _ => false
  end.

(** The group [%Y] of [_strptime]: the regex [\d\d\d\d]. *)
Definition parse_Y (s : string) : option (Z * string) :=
  match s with
  | String a (String b (String c (String d rest))) =>
      if is_digit a && is_digit b && is_digit c && is_digit d
      then Some (1000 * digit_val a + 100 * digit_val b
                 + 10 * digit_val c + digit_val d, rest)
      else None
  | _ => None
  end.

(** The group [%m]: the regex [1[0-2]|0[1-9]|[1-9]], alternatives tried in
    this order, each one kept only if a ["-"] follows it. *)
Definition parse_m (s : string) : option (Z * string) :=
  match s with
  | String a (String b rest) =>
      match rest with
      | String c rest' =>
          if is_char "1" a && in_range 0 2 b && is_char "-" c
          then Some (10 + digit_val b, rest')
          else if is_char "0" a && in_range 1 9 b && is_char "-" c
          then Some (digit_val b, rest')
          else if in_range 1 9 a && is_char "-" b
          then Some (digit_val a, rest)
          else None
      | EmptyString =>
          if in_range 1 9 a && is_char "-" b
          then Some (digit_val a, rest)
          else None
      end
  | _ => None
  end.

(** The group [%d]: the regex [3[0-1]|[1-2]\d|0[1-9]|[1-9]| [1-9]], the first
    alternative that matches; the match must then end the string, otherwise
    [strptime] raises "unconverted data remains". *)
Definition parse_d (s : string) : option Z :=
  match s with
  | String a EmptyString =>
      if in_range 1 9 a then Some (digit_val a) else None
  | String a (String b EmptyString) =>
      if is_char "3" a && in_range 0 1 b then Some (30 + digit_val b)
      else if in_range 1 2 a && is_digit b
      then Some (10 * digit_val a + digit_val b)
      else if is_char "0" a && in_range 1 9 b then Some (digit_val b)
      else if is_char " " a && in_range 1 9 b then Some (digit_val b)
      else None
  | _ => None
  end.

(** [datetime.strptime(s, "%Y-%m-%d")] on a string of ASCII characters;
    [None] stands for [ValueError]. The year 0 and a day past the end of
    the month are refused by the [datetime] constructor. Python's [\d]
    also takes the decimal digits of other scripts; a string with such
    digits is outside this model, which reads none of them. *)
Definition strptime (s : string) : option datetime :=
  match parse_Y s with
  | Some (y, String c r1) =>
      if is_char "-" c then
        match parse_m r1 with
        | Some (m, r2) =>
            match parse_d r2 with
            | Some d =>
                if (1 <=? y) && (d <=? days_in_month y m)
                then Some (mkdatetime y m d 0 0 0 0)
                else None
            | None => None
            end
        | None => None
        end
      else None
  | _ => None
  end.

(** Order of [datetime] values, field by field. *)
Definition to_tuple (t : datetime) : list Z :=
  [year t; month t; day t; hour t; minute t; second t; microsecond t].

Fixpoint lex_ltb (a b : list Z) : bool :=
  match a, b with
  | x :: a', y :: b' => (x <? y) || ((x =? y) && lex_ltb a' b')
  | [], _ :: _ => true
  | _, [] => false
  end.

Definition ltb (a b : datetime) : bool := lex_ltb (to_tuple a) (to_tuple b).
Definition gtb (a b : datetime) : bool := ltb b a.

(** Decimal digits of [n], [w] of them, zero padded (["%0wd"]). *)
Definition digit_char (d : Z) : ascii := ascii_of_nat (Z.to_nat (48 + d mod 10)).

Fixpoint pad (w : nat) (n : Z) (acc : string) : string :=
  match w with
  | O => acc
  | S w' => pad w' (n / 10) (String (digit_char n) acc)
  end.

(** [t.strftime("%Y-%m-%d")] for a year of four digits. *)
Definition strftime (t : datetime) : string :=
  pad 4 (year t) ("-" ++ pad 2 (month t) ("-" ++ pad 2 (day t) "")).

(** [t.isoformat()]: the microseconds are printed only when not zero. *)
Definition isoformat (t : datetime) : string :=
  strftime t ++ "T" ++ pad 2 (hour t) (":" ++ pad 2 (minute t) (":" ++
    pad 2 (second t)
      (if microsecond t =? 0 then "" else "." ++ pad 6 (microsecond t) ""))).

(** The shape [YYYY-MM-DD]: ten characters, digits around two dashes. *)
Definition fixed_width (s : string) : bool :=
  match s with
  | String y1 (String y2 (String y3 (String y4 (String d1 (String m1
      (String m2 (String d2 (String a1 (String a2 EmptyString))))))))) =>
      is_digit y1 && is_digit y2 && is_digit y3 && is_digit y4
      && is_char "-" d1 && is_digit m1 && is_digit m2 && is_char "-" d2
      && is_digit a1 && is_digit a2
  | _ => false
  end.

End Date.

(** ** Values and documents *)

(** The Python values that occur in announcement documents, each stored by
    the driver as the BSON value of the same kind: [None] (null), [str] and
    [ObjectId] (its bytes). *)
Inductive value :=
  | VNone
  | VStr (s : string)
  | VOid (o : list Z).

#[global] Instance value_eq_dec : EqDecision value.
Proof. solve_decision. Defined.

(** A document, and a Python [dict] with string keys: a finite map. *)
Abbreviation doc := (gmap string value).

(** Truth value of a Python object, as tested by [if x] and [x or y]. *)
Definition truthy (v : value) : bool :=
  match v with
  | VNone => false
  | VStr s => negb (String.eqb s "")
  | VOid _ => true
  end.

(** An [Optional[str]] parameter as a Python value. *)
Definition of_param (p : option string) : value :=
  match p with
  | None => VNone
  | Some s => VStr s
  end.

(** [d.get(k)]: [None] when the key is missing. *)
Definition dict_get (d : doc) (k : string) : value := default VNone (d !! k).

(** [a or b]. *)
Definition py_or (a b : value) : value := if truthy a then a else b.

(** ** ObjectId *)

Module Oid.

Definition is_space (c : ascii) : bool :=
  let n := Z.of_nat (nat_of_ascii c) in (n =? 32) || ((9 <=? n) && (n <=? 13)).

Definition hex_val (c : ascii) : option Z :=
  let n := Z.of_nat (nat_of_ascii c) in
  if (48 <=? n) && (n <=? 57) then Some (n - 48)
  else if (97 <=? n) && (n <=? 102) then Some (n - 87)
  else if (65 <=? n) && (n <=? 70) then Some (n - 55)
  else None.

(** [bytes.fromhex]: two hexadecimal digits per byte, ASCII whitespace
    between bytes skipped; [None] stands for [ValueError]. *)
Fixpoint fromhex (s : string) : option (list Z) :=
  match s with
  | EmptyString => Some []
  | String a r =>
      if is_space a then fromhex r
      else match r with
           | String b r' =>
               match hex_val a, hex_val b with
               | Some x, Some y =>
                   match fromhex r' with
                   | Some l => Some (16 * x + y :: l)
                   | None => None
                   end
               | _, _ => None
               end
           | EmptyString => None
           end
  end.

Definition hex_char (n : Z) : ascii :=
  ascii_of_nat (Z.to_nat (if n <? 10 then 48 + n else 87 + n)).

(** [str(oid)]: two lower-case hexadecimal digits per byte. *)
Fixpoint hex (o : list Z) : string :=
  match o with
  | [] => ""
  | b :: o' => String (hex_char (b / 16)) (String (hex_char (b mod 16)) (hex o'))
  end.

End Oid.

(** [ObjectId(s)] for a string [s]: [s] has 24 characters and
    [bytes.fromhex] accepts it; [None] stands for [InvalidId]. *)
Definition ObjectId (s : string) : option (list Z) :=
  if (String.length s =? 24)%nat then Oid.fromhex s else None.

(** [str(v)]. *)
Definition py_str (v : value) : string :=
  match v with
  | VNone => "None"
  | VStr s => s
  | VOid o => Oid.hex o
  end.

(** ** Queries of the document store *)

(** The filters the router passes to the collection. *)
Inductive query :=
  | QAll                                  (* find() *)
  | QEq (f : string) (v : value)          (* {f: v} *)
  | QExists (f : string) (b : bool)       (* {f: {"$exists": b}} *)
  | QLte (f : string) (v : value)         (* {f: {"$lte": v}} *)
  | QGte (f : string) (v : value)         (* {f: {"$gte": v}} *)
  | QOr (q1 q2 : query)                   (* {"$or": [q1, q2]} *)
  | QAnd (q1 q2 : query).                 (* {**q1, **q2} *)

Fixpoint bytes_compare (a b : list Z) : comparison :=
  match a, b with
  | [], [] => Eq
  | [], _ :: _ => Lt
  | _ :: _, [] => Gt
  | x :: a', y :: b' =>
      match x ?= y with
      | Eq => bytes_compare a' b'
      | c => c
      end
  end.

(** Comparison operators only relate values of one BSON type: a string is
    neither below nor above null. Strings compare byte by byte. *)
Definition value_compare (a b : value) : option comparison :=
  match a, b with
  | VNone, VNone => Some Eq
  | VStr x, VStr y => Some (String.compare x y)
  | VOid x, VOid y => Some (bytes_compare x y)
  | _, _ => None
  end.

Definition value_leb (a b : value) : bool :=
  match value_compare a b with
  | Some Lt | Some Eq => true
  | _ => false
  end.

Fixpoint matches (q : query) (d : doc) : bool :=
  match q with
  | QAll => true
  | QEq f v =>
      match d !! f with
      | Some x => bool_decide (x = v)
      | None => bool_decide (v = VNone)
      end
  | QExists f b =>
      match d !! f with
      | Some _ => b
      | None => negb b
      end
  | QLte f v =>
      match d !! f with
      | Some x => value_leb x v
      | None => false
      end
  | QGte f v =>
      match d !! f with
      | Some x => value_leb v x
      | None => false
      end
  | QOr q1 q2 => matches q1 d || matches q2 d
  | QAnd q1 q2 => matches q1 d && matches q2 d
  end.

(** ** Collections *)

Module Collection.

Definition find (q : query) (c : list doc) : list doc := List.filter (matches q) c.

Definition find_one (q : query) (c : list doc) : option doc := List.find (matches q) c.

(** [insert_one]: the driver gives the document its [_id] and appends it. *)
Definition insert_one (d : doc) (new_id : list Z) (c : list doc) : list doc :=
  c ++ [<["_id" := VOid new_id]> d].

(** [update_one(q, {"$set": upd})]: the first match takes the fields of
    [upd]; the count is that of the documents actually changed. *)
Fixpoint update_one (q : query) (upd : doc) (c : list doc) : list doc * Z :=
  match c with
  | [] => ([], 0)
  | d :: c' =>
      if matches q d
      then (upd ∪ d :: c', if bool_decide (upd ∪ d = d) then 0 else 1)
      else let '(c'', n) := update_one q upd c' in (d :: c'', n)
  end.

(** [delete_one(q)]: the first match is removed. *)
Fixpoint delete_one (q : query) (c : list doc) : list doc * Z :=
  match c with
  | [] => ([], 0)
  | d :: c' =>
      if matches q d then (c', 1)
      else let '(c'', n) := delete_one q c' in (d :: c'', n)
  end.

End Collection.

(** ** The world the endpoints run in *)

(** Calls made to the two collections, in order. *)
Inductive event :=
  | TeachersFindOne (username : string)
  | AnnFind (q : query)
  | AnnFindOne (q : query)
  | AnnInsertOne (d : doc)
  | AnnUpdateOne (q : query) (upd : doc)
  | AnnDeleteOne (q : query).

Definition on_announcements (e : event) : bool :=
  match e with
  | TeachersFindOne _ => false
  | _ => true
  end.

(** The database: the announcements in their natural (insertion) order, the
    [_id]s of the teachers, and the calls made so far. *)
Record world := mkworld {
  announcements_collection : list doc;
  teachers_collection : gset string;
  calls : list event
}.

(** The calls made to the announcement collection. *)
Definition announcement_calls (w : world) : list event :=
  List.filter on_announcements (calls w).

Record HTTPException := mkHTTPException { status_code : Z; detail : string }.

#[global] Instance HTTPException_eq_dec : EqDecision HTTPException.
Proof. solve_decision. Defined.

(** The error kinds of the specification. *)
Definition Unauthenticated := mkHTTPException 401 "Authentication required".
Definition InvalidCredentials := mkHTTPException 401 "Invalid credentials".
Definition InvalidId := mkHTTPException 400 "Invalid announcement ID".
Definition NotFound := mkHTTPException 404 "Announcement not found".
Definition InvalidDateRange :=
  mkHTTPException 400 "Start date cannot be after expiration date".
Definition UpdateFailed := mkHTTPException 500 "Failed to update announcement".
Definition InvalidDateFormat (e : HTTPException) : bool :=
  bool_decide (e = mkHTTPException 400 "Invalid date format. Use YYYY-MM-DD")
  || bool_decide
       (e = mkHTTPException 400 "Invalid expiration_date format. Use YYYY-MM-DD")
  || bool_decide
       (e = mkHTTPException 400 "Invalid start_date format. Use YYYY-MM-DD").
(** An exception the endpoint does not catch ([TypeError]). *)
Definition InternalError := mkHTTPException 500 "Internal Server Error".

(** Outcome of a request: the value returned or the exception raised. *)
Inductive result (A : Type) :=
  | Ok (a : A)
  | Raise (e : HTTPException).
Arguments Ok {A} a.
Arguments Raise {A} e.

(** Requests read and change the world, and may raise. *)
Definition M (A : Type) : Type := world -> result A * world.

Definition ret {A} (a : A) : M A := fun w => (Ok a, w).

Definition raise {A} (e : HTTPException) : M A := fun w => (Raise e, w).

Definition bind {A B} (m : M A) (k : A -> M B) : M B :=
  fun w =>
    match m w with
    | (Ok a, w') => k a w'
    | (Raise e, w') => (Raise e, w')
    end.

Notation "x <- m ; k" := (bind m (fun x => k))
  (at level 20, m at level 100, k at level 200, only parsing).

Definition record (e : event) (w : world) : world :=
  mkworld (announcements_collection w) (teachers_collection w) (calls w ++ [e]).

Definition set_announcements (c : list doc) (w : world) : world :=
  mkworld c (teachers_collection w) (calls w).

(** [teachers_collection.find_one({"_id": username})], as found or not. *)
Definition teachers_find_one (username : string) : M bool :=
  fun w => (Ok (bool_decide (username ∈ teachers_collection w)),
            record (TeachersFindOne username) w).

Definition find (q : query) : M (list doc) :=
  fun w => (Ok (Collection.find q (announcements_collection w)),
            record (AnnFind q) w).

Definition find_one (q : query) : M (option doc) :=
  fun w => (Ok (Collection.find_one q (announcements_collection w)),
            record (AnnFindOne q) w).

Definition insert_one (d : doc) (new_id : list Z) : M (list Z) :=
  fun w => (Ok new_id,
            set_announcements
              (Collection.insert_one d new_id (announcements_collection w))
              (record (AnnInsertOne d) w)).

(** Returns [modified_count]. *)
Definition update_one (q : query) (upd : doc) : M Z :=
  fun w => let '(c, n) := Collection.update_one q upd (announcements_collection w) in
           (Ok n, set_announcements c (record (AnnUpdateOne q upd) w)).

(** Returns [deleted_count]. *)
Definition delete_one (q : query) : M Z :=
  fun w => let '(c, n) := Collection.delete_one q (announcements_collection w) in
           (Ok n, set_announcements c (record (AnnDeleteOne q) w)).

(** ** The endpoints *)

(** [announcement["_id"] = str(announcement["_id"])] when the key is there. *)
Definition stringify_id (d : doc) : doc :=
  match d !! "_id" with
  | Some v => <["_id" := VStr (py_str v)]> d
  | None => d
  end.

(** The block "Verify teacher authentication" that opens every endpoint
    but the public one. *)
Definition verify_teacher (username : option string) : M unit :=
  if negb (truthy (of_param username)) then raise Unauthenticated
  else
    teacher <- teachers_find_one (py_str (of_param username)) ;
    if negb teacher then raise InvalidCredentials else ret tt.

(** The filter of the public listing: started and not expired. *)
Definition active_query (today : string) : query :=
  QAnd (QOr (QExists "start_date" false) (QLte "start_date" (VStr today)))
       (QGte "expiration_date" (VStr today)).

Definition get_active_announcements (now : Date.datetime) : M (list doc) :=
  let today := Date.strftime now in
  announcements <- find (active_query today) ;
  ret (List.map stringify_id announcements).

Definition get_all_announcements (username : option string) : M (list doc) :=
  _ <- verify_teacher username ;
  announcements <- find QAll ;
  ret (List.map stringify_id announcements).

Definition create_announcement (now : Date.datetime) (new_id : list Z)
    (title message expiration_date : string)
    (start_date username : option string) : M doc :=
  _ <- verify_teacher username ;
  match Date.strptime expiration_date with
  | None => raise (mkHTTPException 400 "Invalid date format. Use YYYY-MM-DD")
  | Some exp_date =>
      _ <- (if truthy (of_param start_date) then
         match Date.strptime (py_str (of_param start_date)) with
         | None => raise (mkHTTPException 400 "Invalid date format. Use YYYY-MM-DD")
         | Some start =>
             if Date.gtb start exp_date then raise InvalidDateRange else ret tt
         end
       else ret tt) ;
      let announcement : doc :=
        <["title" := VStr title]> (
        <["message" := VStr message]> (
        <["expiration_date" := VStr expiration_date]> (
        <["start_date" := of_param start_date]> (
        <["created_by" := of_param username]> (
        <["created_at" := VStr (Date.isoformat now)]> ∅))))) in
      inserted_id <- insert_one announcement new_id ;
      ret (<["_id" := VStr (py_str (VOid inserted_id))]> announcement)
  end.

(** The check "Validate dates if both are provided" of the update: the
    [try] block, where [ValueError] is passed over and a value that is not
    a string makes [strptime] raise [TypeError]. *)
Definition validate_range (start exp : value) : M unit :=
  if truthy start && truthy exp then
    match start with
    | VStr s =>
        match Date.strptime s with
        | None => ret tt
        | Some start_dt =>
            match exp with
            | VStr e =>
                match Date.strptime e with
                | None => ret tt
                | Some exp_dt =>
                    if Date.gtb start_dt exp_dt then raise InvalidDateRange
                    else ret tt
                end
            | _ => raise InternalError
            end
        end
    | _ => raise InternalError
    end
  else ret tt.

Definition update_announcement (now : Date.datetime) (announcement_id : string)
    (title message expiration_date start_date username : option string)
    : M doc :=
  _ <- verify_teacher username ;
  match ObjectId announcement_id with
  | None => raise InvalidId
  | Some obj_id =>
      announcement <- find_one (QEq "_id" (VOid obj_id)) ;
      match announcement with
      | None => raise NotFound
      | Some announcement =>
          let update_data : doc := ∅ in
          let update_data :=
            if truthy (of_param title)
            then <["title" := of_param title]> update_data
            else update_data in
          let update_data :=
            if truthy (of_param message)
            then <["message" := of_param message]> update_data
            else update_data in
          update_data <-
            (if truthy (of_param expiration_date) then
               match Date.strptime (py_str (of_param expiration_date)) with
               | None =>
                   raise (mkHTTPException 400
                            "Invalid expiration_date format. Use YYYY-MM-DD")
               | Some _ =>
                   ret (<["expiration_date" := of_param expiration_date]>
                          update_data)
               end
             else ret update_data) ;
          update_data <-
            (match start_date with
             | Some s =>
                 if truthy (VStr s) then
                   match Date.strptime s with
                   | None =>
                       raise (mkHTTPException 400
                                "Invalid start_date format. Use YYYY-MM-DD")
                   | Some _ => ret (<["start_date" := VStr s]> update_data)
                   end
                 else ret (<["start_date" := VNone]> update_data)
             | None => ret update_data
             end) ;
          _ <- (if bool_decide (is_Some (update_data !! "start_date"))
                   || bool_decide (is_Some (update_data !! "expiration_date"))
                then
                  let start := py_or (dict_get update_data "start_date")
                                     (dict_get announcement "start_date") in
                  let exp := py_or (dict_get update_data "expiration_date")
                                   (dict_get announcement "expiration_date") in
                  validate_range start exp
                else ret tt) ;
          let update_data :=
            <["updated_at" := VStr (Date.isoformat now)]> update_data in
          modified_count <- update_one (QEq "_id" (VOid obj_id)) update_data ;
          if modified_count =? 0 then raise UpdateFailed
          else
            updated <- find_one (QEq "_id" (VOid obj_id)) ;
            match updated with
            | Some updated =>
                ret (<["_id" := VStr (py_str (dict_get updated "_id"))]> updated)
            | None => raise InternalError
            end
      end
  end.

Definition delete_announcement (announcement_id : string)
    (username : option string) : M doc :=
  _ <- verify_teacher username ;
  match ObjectId announcement_id with
  | None => raise InvalidId
  | Some obj_id =>
      deleted_count <- delete_one (QEq "_id" (VOid obj_id)) ;
      if deleted_count =? 0 then raise NotFound
      else ret {[ "message" := VStr "Announcement deleted successfully" ]}
  end.

(** ** Sample data *)

Module Sample.

Definition teachers : gset string := {[ "ms_jones" ]}.

Definition empty : world := mkworld [] teachers [].

Definition id1 : list Z := [101; 161; 178; 195; 212; 229; 246; 7; 24; 41; 58; 75].
Definition id1_str : string := "65a1b2c3d4e5f60718293a4b".
Definition id2 : list Z := [101; 161; 178; 195; 212; 229; 246; 7; 24; 41; 58; 76].
Definition id2_str : string := "65a1b2c3d4e5f60718293a4c".

(** 20 May 2025, 09:30:00. *)
Definition may20 : Date.datetime := Date.mkdatetime 2025 5 20 9 30 0 0.
(** 21 May 2025, 10:00:00. *)
Definition may21 : Date.datetime := Date.mkdatetime 2025 5 21 10 0 0 0.
(** 1 October 2025, 08:00:00. *)
Definition oct1 : Date.datetime := Date.mkdatetime 2025 10 1 8 0 0 0.

(** An announcement with both dates, as [create] stores it. *)
Definition exam_week : doc :=
  <["_id" := VOid id1]> (
  <["title" := VStr "Exam Week"]> (
  <["message" := VStr "Finals start Monday"]> (
  <["expiration_date" := VStr "2025-06-01"]> (
  <["start_date" := VStr "2025-05-01"]> (
  <["created_by" := VStr "ms_jones"]> (
  <["created_at" := VStr "2025-04-30T08:00:00"]> ∅)))))).

(** The same announcement without the field [start_date]. *)
Definition exam_week_no_start : doc := delete "start_date" exam_week.

Definition one : world := mkworld [exam_week] teachers [].

End Sample.

(** ** The credential gate *)

(** The caller gave an identifier and the teachers collection has it. *)
Definition known_teacher (w : world) (username : option string) : bool :=
  truthy (of_param username)
  && bool_decide (py_str (of_param username) ∈ teachers_collection w).

(** ** Identifiers in the collection *)

(** A unique index on [_id]: no two stored documents share theirs. *)
Definition unique_ids (c : list doc) : Prop :=
  NoDup (List.map (fun d : doc => d !! "_id") c).

(** The filter [{"_id": obj_id}]. *)
Definition by_id (obj_id : list Z) : query := QEq "_id" (VOid obj_id).

(** ** The update, step by step

    The pure parts of [update_announcement], named so that its outcome can
    be stated: the fields collected from the parameters, the format errors,
    and the date-range check against the stored document. *)

(** [update_data] once the parameters have been read. *)
Definition update_fields (title message expiration_date start_date : option string)
    : doc :=
  let update_data : doc := ∅ in
  let update_data :=
    if truthy (of_param title)
    then <["title" := of_param title]> update_data else update_data in
  let update_data :=
    if truthy (of_param message)
    then <["message" := of_param message]> update_data else update_data in
  let update_data :=
    if truthy (of_param expiration_date)
    then <["expiration_date" := of_param expiration_date]> update_data
    else update_data in
  match start_date with
  | Some s =>
      if truthy (VStr s) then <["start_date" := VStr s]> update_data
      else <["start_date" := VNone]> update_data
  | None => update_data
  end.

(** The format error raised while the parameters are read, if any. *)
Definition format_error (expiration_date start_date : option string)
    : option HTTPException :=
  match
    (if truthy (of_param expiration_date) then
       match Date.strptime (py_str (of_param expiration_date)) with
       | None => Some (mkHTTPException 400
                         "Invalid expiration_date format. Use YYYY-MM-DD")
       | Some _ => None
       end
     else None)
  with
  | Some e => Some e
  | None =>
      match start_date with
      | Some s =>
          if truthy (VStr s) then
            match Date.strptime s with
            | None => Some (mkHTTPException 400
                              "Invalid start_date format. Use YYYY-MM-DD")
            | Some _ => None
            end
          else None
      | None => None
      end
  end.

(** The exception raised by [validate_range], if any. *)
Definition range_error_of (start exp : value) : option HTTPException :=
  if truthy start && truthy exp then
    match start with
    | VStr s =>
        match Date.strptime s with
        | None => None
        | Some start_dt =>
            match exp with
            | VStr e =>
                match Date.strptime e with
                | None => None
                | Some exp_dt =>
                    if Date.gtb start_dt exp_dt then Some InvalidDateRange
                    else None
                end
            | _ => Some InternalError
            end
        end
    | _ => Some InternalError
    end
  else None.

(** The exception raised by the date-range check of the update, if any. *)
Definition range_error (update_data announcement : doc) : option HTTPException :=
  if bool_decide (is_Some (update_data !! "start_date"))
     || bool_decide (is_Some (update_data !! "expiration_date"))
  then range_error_of
         (py_or (dict_get update_data "start_date")
                (dict_get announcement "start_date"))
         (py_or (dict_get update_data "expiration_date")
                (dict_get announcement "expiration_date"))
  else None.

(** The outcome of the update once the document has been found. *)
Definition update_outcome (now : Date.datetime) (obj_id : list Z)
    (title message expiration_date start_date : option string)
    (announcement : doc) (w : world) : result doc * world :=
  match format_error expiration_date start_date with
  | Some e => (Raise e, w)
  | None =>
      let update_data := update_fields title message expiration_date start_date in
      match range_error update_data announcement with
      | Some e => (Raise e, w)
      | None =>
          let update_data :=
            <["updated_at" := VStr (Date.isoformat now)]> update_data in
          let cn := Collection.update_one (by_id obj_id) update_data
                      (announcements_collection w) in
          let w := set_announcements (fst cn)
                     (record (AnnUpdateOne (by_id obj_id) update_data) w) in
          if snd cn =? 0 then (Raise UpdateFailed, w)
          else
            (match Collection.find_one (by_id obj_id) (fst cn) with
             | Some updated =>
                 Ok (<["_id" := VStr (py_str (dict_get updated "_id"))]> updated)
             | None => Raise InternalError
             end, record (AnnFindOne (by_id obj_id)) w)
      end
  end.

(** ** Sequences of requests *)

(** A request to one of the five endpoints, with what the clock and the
    driver supply for it. *)
Inductive request :=
  | ListActive (now : Date.datetime)
  | ListAll (username : option string)
  | Create (now : Date.datetime) (new_id : list Z)
      (title message expiration_date : string)
      (start_date username : option string)
  | Update (now : Date.datetime) (announcement_id : string)
      (title message expiration_date start_date username : option string)
  | Delete (announcement_id : string) (username : option string).

(** The world after a request has been served. *)
Definition serve (rq : request) (w : world) : world :=
  match rq with
  | ListActive now => snd (get_active_announcements now w)
  | ListAll username => snd (get_all_announcements username w)
  | Create now new_id title message expiration_date start_date username =>
      snd (create_announcement now new_id title message expiration_date
             start_date username w)
  | Update now announcement_id title message expiration_date start_date
      username =>
      snd (update_announcement now announcement_id title message
             expiration_date start_date username w)
  | Delete announcement_id username =>
      snd (delete_announcement announcement_id username w)
  end.

(** The worlds reached from [w0] by requests that all satisfy [allowed]. *)
Inductive reachable (allowed : request -> Prop) (w0 : world) : world -> Prop :=
  | reach_start : reachable allowed w0 w0
  | reach_step (w : world) (rq : request) :
      reachable allowed w0 w -> allowed rq ->
      reachable allowed w0 (serve rq w).

(** The document has a title, a string that is not empty. *)
Definition titled (d : doc) : bool :=
  match d !! "title" with
  | Some (VStr s) => negb (String.eqb s "")
  | _ => false
  end.

(** Create requests carry a title that is not empty. *)
Definition create_titled (rq : request) : Prop :=
  match rq with
  | Create _ _ title _ _ _ _ => title <> ""
  | _ => True
  end.

(** ** Calendar dates *)

(** The fields of [t] are those of a calendar day, with a year of at most
    four digits. *)
Definition valid_date (t : Date.datetime) : bool :=
  (1 <=? Date.year t) && (Date.year t <=? 9999)
  && (1 <=? Date.month t) && (Date.month t <=? 12)
  && (1 <=? Date.day t)
  && (Date.day t <=? Date.days_in_month (Date.year t) (Date.month t)).

(** The day of [t], at midnight: what [strptime] reads from a date. *)
Definition date_of (t : Date.datetime) : Date.datetime :=
  Date.mkdatetime (Date.year t) (Date.month t) (Date.day t) 0 0 0 0.

(** [a <= b] on [datetime] values. *)
Definition date_leb (a b : Date.datetime) : bool := negb (Date.ltb b a).

(** ** Identifiers as the driver makes them *)

(** Twelve bytes. *)
Definition oid_bytes (o : list Z) : bool :=
  (length o =? 12)%nat && forallb (fun b => (0 <=? b) && (b <? 256)) o.

(** No stored document has the identifier [o], as an [ObjectId] or as
    its string. *)
Definition fresh_id (o : list Z) (c : list doc) : Prop :=
  Forall (fun d : doc => d !! "_id" <> Some (VOid o)) c.

(** The start date given to create is omitted, empty, or a date not after
    the expiration date [exp_date]. *)
Definition start_accepted (start_date : option string) (exp_date : Date.datetime)
    : bool :=
  match start_date with
  | None => true
  | Some s =>
      if truthy (VStr s) then
        match Date.strptime s with
        | Some start => negb (Date.gtb start exp_date)
        | None => false
        end
      else true
  end.

(** The document create builds from its parameters. *)
Definition new_announcement (now : Date.datetime)
    (title message expiration_date : string)
    (start_date username : option string) : doc :=
  <["title" := VStr title]> (
  <["message" := VStr message]> (
  <["expiration_date" := VStr expiration_date]> (
  <["start_date" := of_param start_date]> (
  <["created_by" := of_param username]> (
  <["created_at" := VStr (Date.isoformat now)]> ∅))))).

(** A create request comes with an identifier that no stored document
    has. *)
Definition request_fresh (rq : request) (w : world) : Prop :=
  match rq with
  | Create _ new_id _ _ _ _ _ => fresh_id new_id (announcements_collection w)
  | _ => True
  end.

(** The exception a request ends with, if it raises. *)
Definition failure (rq : request) (w : world) : option HTTPException :=
  let outcome {A} (o : result A * world) :=
    match fst o with
    | Raise e => Some e
    | Ok _ => None
    end in
  match rq with
  | ListActive now => outcome (get_active_announcements now w)
  | ListAll username => outcome (get_all_announcements username w)
  | Create now new_id title message expiration_date start_date username =>
      outcome (create_announcement now new_id title message expiration_date
                 start_date username w)
  | Update now announcement_id title message expiration_date start_date
      username =>
      outcome (update_announcement now announcement_id title message
                 expiration_date start_date username w)
  | Delete announcement_id username =>
      outcome (delete_announcement announcement_id username w)
  end.

(** ** Reading outcomes *)

(** The request returned. *)
Definition is_ok {A} (o : result A) : bool :=
  match o with
  | Ok _ => true
  | Raise _ => false
  end.

(** The field [k] of the document returned. *)
Definition returned (o : result doc) (k : string) : option value :=
  match o with
  | Ok r => r !! k
  | Raise _ => None
  end.

(** The field [k] of the only document of [c]. *)
Definition only (c : list doc) (k : string) : option value :=
  match c with
  | [d] => d !! k
  | _ => None
  end.

(** The field [k] of the only document listed. *)
Definition only_listed (o : result (list doc)) (k : string) : option value :=
  match o with
  | Ok c => only c k
  | Raise _ => None
  end.

(** ** The collection after an update *)

(** The announcement collection an update request leaves, from the
    collection it finds: the fields written in the document found when
    the caller passes the gate ([known]), the identifier is well formed
    and every check passes; the collection as it was otherwise. *)
Definition updated_collection (now : Date.datetime) (announcement_id : string)
    (title message expiration_date start_date : option string)
    (known : bool) (c : list doc) : list doc :=
  if known then
    match ObjectId announcement_id with
    | Some obj_id =>
        match Collection.find_one (by_id obj_id) c with
        | Some announcement =>
            match format_error expiration_date start_date with
            | Some _ => c
            | None =>
                match range_error
                        (update_fields title message expiration_date start_date)
                        announcement with
                | Some _ => c
                | None =>
                    fst (Collection.update_one (by_id obj_id)
                           (<["updated_at" := VStr (Date.isoformat now)]>
                              (update_fields title message expiration_date
                                 start_date))
                           c)
                end
            end
        | None => c
        end
    | None => c
    end
  else c.

(** A request leaves the teachers collection as it was. *)
Definition keeps_teachers {A} (m : M A) : Prop :=
  forall w, teachers_collection (snd (m w)) = teachers_collection w.

(** The characters of [s] are ASCII characters. *)
Definition ascii_only (s : string) : bool :=
  forallb (fun c => (nat_of_ascii c <? 128)%nat) (list_ascii_of_string s).

(** The parameter, when given, is made of ASCII characters. *)
Definition ascii_param (p : option string) : bool :=
  match p with
  | Some s => ascii_only s
  | None => true
  end.

(** * Properties of the endpoints *)

(** ** Evaluation *)

(** Both sides evaluate to the same value. *)
Ltac vm_refl :=
  match goal with
  | |- ?a = ?b => exact (@eq_refl _ b <: a = b)
  end.

Lemma is_ok_ex {A} (o : result A) : is_ok o = true -> exists r, o = Ok r.
Proof. destruct o as [r | e]; [exists r; reflexivity | discriminate]. Qed.

Lemma ok_pair {A} (o : result A * world) :
  is_ok (fst o) = true -> exists r, o = (Ok r, snd o).
Proof.
  destruct o as [[r | e] w]; [exists r; reflexivity | discriminate].
Qed.

Lemma returned_ex (o : result doc) (k : string) (v : value) :
  returned o k = Some v -> exists r, o = Ok r /\ r !! k = Some v.
Proof.
  destruct o as [r | e]; [| discriminate]. intros H. exists r. split; [reflexivity | exact H].
Qed.

Lemma returned_ex2 (o : result doc) (k1 k2 : string) (v1 v2 : value) :
  returned o k1 = Some v1 -> returned o k2 = Some v2 ->
  exists r, o = Ok r /\ r !! k1 = Some v1 /\ r !! k2 = Some v2.
Proof.
  destruct o as [r | e]; [| discriminate]. intros H1 H2. exists r.
  split; [reflexivity | split; assumption].
Qed.

Lemma only_ex (c : list doc) (k : string) (v : value) :
  only c k = Some v -> exists d, c = [d] /\ d !! k = Some v.
Proof.
  destruct c as [| d [| d' c]]; try discriminate.
  intros H. exists d. split; [reflexivity | exact H].
Qed.

Lemma only_listed_ex (o : result (list doc)) (k : string) (v : value) :
  only_listed o k = Some v -> exists d, o = Ok [d] /\ d !! k = Some v.
Proof.
  destruct o as [c | e]; [| discriminate]. intros H.
  destruct (only_ex c k v H) as (d & -> & Hd).
  exists d. split; [reflexivity | exact Hd].
Qed.

(** ** Sanity checks of the library functions *)

Example strptime_padded :
  Date.strptime "2025-06-01" = Some (Date.mkdatetime 2025 6 1 0 0 0 0).
Proof. reflexivity. Qed.

Example strptime_unpadded :
  Date.strptime "2025-6-1" = Some (Date.mkdatetime 2025 6 1 0 0 0 0).
Proof. reflexivity. Qed.

Example strptime_bad :
  Date.strptime "2025-13-01" = None /\ Date.strptime "2025-02-30" = None
  /\ Date.strptime "2025-06-011" = None /\ Date.strptime "" = None
  /\ Date.strptime "0000-01-01" = None /\ Date.strptime "01/06/2025" = None.
Proof. repeat split; reflexivity. Qed.

Example strftime_ex :
  Date.strftime (Date.mkdatetime 2025 5 20 14 3 9 120) = "2025-05-20"
  /\ Date.isoformat (Date.mkdatetime 2025 5 20 14 3 9 120)
     = "2025-05-20T14:03:09.000120"
  /\ Date.isoformat (Date.mkdatetime 2025 5 20 14 3 9 0) = "2025-05-20T14:03:09".
Proof. repeat split; reflexivity. Qed.

Example ObjectId_ex :
  ObjectId "65A1b2c3d4e5f60718293a4b"
  = Some [101; 161; 178; 195; 212; 229; 246; 7; 24; 41; 58; 75]
  /\ py_str (VOid [101; 161; 178; 195; 212; 229; 246; 7; 24; 41; 58; 75])
     = "65a1b2c3d4e5f60718293a4b"
  /\ ObjectId "not-an-id" = None
  /\ ObjectId "65a1b2c3d4e5f60718293a4z" = None.
Proof. repeat split; reflexivity. Qed.

Example create_example :
  fst (create_announcement Sample.may20 Sample.id1 "Exam Week"
         "Finals start Monday" "2025-06-01" (Some "2025-05-20")
         (Some "ms_jones") Sample.empty)
  = Ok (<["_id" := VStr Sample.id1_str]> (
        <["title" := VStr "Exam Week"]> (
        <["message" := VStr "Finals start Monday"]> (
        <["expiration_date" := VStr "2025-06-01"]> (
        <["start_date" := VStr "2025-05-20"]> (
        <["created_by" := VStr "ms_jones"]> (
        <["created_at" := VStr "2025-05-20T09:30:00"]> ∅))))))).
Proof. vm_refl. Qed.

Example create_example_range :
  create_announcement Sample.may20 Sample.id1 "Exam Week"
    "Finals start Monday" "2025-06-01" (Some "2025-06-10")
    (Some "ms_jones") Sample.empty
  = (Raise InvalidDateRange,
     record (TeachersFindOne "ms_jones") Sample.empty).
Proof. vm_refl. Qed.

(** ** The credential gate *)

Lemma verify_teacher_missing (w : world) (username : option string) :
  truthy (of_param username) = false ->
  verify_teacher username w = (Raise Unauthenticated, w).
Proof. intros H. unfold verify_teacher. rewrite H. reflexivity. Qed.

Lemma verify_teacher_unknown (w : world) (username : option string) :
  truthy (of_param username) = true ->
  py_str (of_param username) ∉ teachers_collection w ->
  verify_teacher username w
  = (Raise InvalidCredentials,
     record (TeachersFindOne (py_str (of_param username))) w).
Proof.
  intros H Hn. unfold verify_teacher, bind, teachers_find_one. rewrite H.
  cbn [negb]. rewrite bool_decide_eq_false_2 by exact Hn. reflexivity.
Qed.

Lemma verify_teacher_known (w : world) (username : option string) :
  known_teacher w username = true ->
  verify_teacher username w
  = (Ok tt, record (TeachersFindOne (py_str (of_param username))) w).
Proof.
  unfold known_teacher. intros [H Hin]%andb_prop.
  unfold verify_teacher, bind, teachers_find_one. rewrite H. cbn [negb].
  rewrite Hin. reflexivity.
Qed.

Lemma record_announcements (e : event) (w : world) :
  announcements_collection (record e w) = announcements_collection w.
Proof. reflexivity. Qed.

Lemma record_teachers (e : event) (w : world) :
  teachers_collection (record e w) = teachers_collection w.
Proof. reflexivity. Qed.

Lemma record_teacher_calls (u : string) (w : world) :
  announcement_calls (record (TeachersFindOne u) w) = announcement_calls w.
Proof.
  unfold announcement_calls, record. cbn [calls].
  rewrite List.filter_app. cbn. apply app_nil_r.
Qed.

Lemma known_teacher_record (e : event) (w : world) (username : option string) :
  known_teacher (record e w) username = known_teacher w username.
Proof. reflexivity. Qed.

(** A request stopped by the gate: the outcome, for any endpoint. *)
Lemma gate_stops {A} (username : option string) (k : unit -> M A)
    (e : HTTPException) (w w' : world) :
  verify_teacher username w = (Raise e, w') ->
  bind (verify_teacher username) k w = (Raise e, w').
Proof. intros H. unfold bind. rewrite H. reflexivity. Qed.

Lemma gate_passes {A} (username : option string) (k : unit -> M A) (w : world) :
  known_teacher w username = true ->
  bind (verify_teacher username) k w
  = k tt (record (TeachersFindOne (py_str (of_param username))) w).
Proof.
  intros H. unfold bind. rewrite (verify_teacher_known _ _ H). reflexivity.
Qed.

(** C5. Every endpoint behind the gate (list-all, create, update, delete)
    fails with [Unauthenticated] when no caller identifier is supplied (the
    parameter is absent or empty), and with [InvalidCredentials] when the
    identifier supplied is not found by the lookup in the teachers
    collection. In the first case the world is left as it was; in the
    second the only call made is the lookup: the announcement collection is
    neither read nor changed. *)
Theorem C5_gate_before_store (w : world) (username : option string)
    (now : Date.datetime) (new_id : list Z) (announcement_id : string)
    (title message expiration_date : string)
    (title' message' expiration_date' start_date : option string) :
  (truthy (of_param username) = false ->
     get_all_announcements username w = (Raise Unauthenticated, w)
     /\ create_announcement now new_id title message expiration_date
          start_date username w = (Raise Unauthenticated, w)
     /\ update_announcement now announcement_id title' message'
          expiration_date' start_date username w = (Raise Unauthenticated, w)
     /\ delete_announcement announcement_id username w
        = (Raise Unauthenticated, w))
  /\ (truthy (of_param username) = true ->
      py_str (of_param username) ∉ teachers_collection w ->
      exists w',
        announcements_collection w' = announcements_collection w
        /\ announcement_calls w' = announcement_calls w
        /\ get_all_announcements username w = (Raise InvalidCredentials, w')
        /\ create_announcement now new_id title message expiration_date
             start_date username w = (Raise InvalidCredentials, w')
        /\ update_announcement now announcement_id title' message'
             expiration_date' start_date username w
           = (Raise InvalidCredentials, w')
        /\ delete_announcement announcement_id username w
           = (Raise InvalidCredentials, w')).
Proof.
  split.
  - intros H. pose proof (verify_teacher_missing w username H) as Hv.
    repeat split; apply gate_stops; exact Hv.
  - intros H Hn. pose proof (verify_teacher_unknown w username H Hn) as Hv.
    eexists. split; [| split; [| repeat split; apply gate_stops; exact Hv]].
    + apply record_announcements.
    + apply record_teacher_calls.
Qed.

Lemma C5_gate_before_store_witness :
  (get_all_announcements None Sample.one = (Raise Unauthenticated, Sample.one)
   /\ delete_announcement Sample.id1_str (Some "") Sample.one
      = (Raise Unauthenticated, Sample.one))
  /\ exists w',
       announcements_collection w' = [Sample.exam_week]
       /\ announcement_calls w' = []
       /\ delete_announcement Sample.id1_str (Some "mallory") Sample.one
          = (Raise InvalidCredentials, w').
Proof.
  split; [split |].
  - apply (C5_gate_before_store Sample.one None Sample.may20 Sample.id2
             Sample.id1_str "t" "m" "2025-06-01" None None None None).
    reflexivity.
  - apply (C5_gate_before_store Sample.one (Some "") Sample.may20 Sample.id2
             Sample.id1_str "t" "m" "2025-06-01" None None None None).
    reflexivity.
  - destruct (proj2 (C5_gate_before_store Sample.one (Some "mallory")
             Sample.may20 Sample.id2 Sample.id1_str "t" "m" "2025-06-01"
             None None None None) eq_refl) as (w' & Ha & Hc & _ & _ & _ & Hd).
    + vm_compute. intros H. discriminate H.
    + exists w'. split; [exact Ha | split; [exact Hc | exact Hd]].
Defined.

(** A caller the gate refuses: the request raises and the announcement
    collection is neither read nor changed. *)
Lemma gate_refuses {A} (username : option string) (k : unit -> M A) (w : world) :
  known_teacher w username = false ->
  exists e w',
    bind (verify_teacher username) k w = (Raise e, w')
    /\ (e = Unauthenticated \/ e = InvalidCredentials)
    /\ announcements_collection w' = announcements_collection w
    /\ announcement_calls w' = announcement_calls w.
Proof.
  unfold known_teacher. intros H.
  destruct (truthy (of_param username)) eqn:Ht.
  - cbn [andb] in H. apply bool_decide_eq_false_1 in H.
    exists InvalidCredentials. eexists. split.
    + apply gate_stops, verify_teacher_unknown; assumption.
    + split; [right; reflexivity |].
      split; [apply record_announcements | apply record_teacher_calls].
  - exists Unauthenticated, w. split.
    + apply gate_stops, verify_teacher_missing; assumption.
    + split; [left; reflexivity | split; reflexivity].
Qed.

(** ** Creation *)

Lemma strptime_truthy (s : string) (t : Date.datetime) :
  Date.strptime s = Some t -> truthy (VStr s) = true.
Proof. destruct s; [discriminate | reflexivity]. Qed.

(** C4. A create call whose two dates parse and whose start date is after
    its expiration date raises and inserts nothing: the announcement
    collection is left as it was, with no call made to it. For a caller
    that passes the gate the error is [InvalidDateRange]. *)
Theorem C4_create_inverted_range (w : world) (now : Date.datetime)
    (new_id : list Z) (title message expiration_date start_date : string)
    (username : option string) (start exp_date : Date.datetime) :
  Date.strptime start_date = Some start ->
  Date.strptime expiration_date = Some exp_date ->
  Date.gtb start exp_date = true ->
  let out := create_announcement now new_id title message expiration_date
               (Some start_date) username w in
  (known_teacher w username = true -> fst out = Raise InvalidDateRange)
  /\ (exists e, fst out = Raise e)
  /\ announcements_collection (snd out) = announcements_collection w
  /\ announcement_calls (snd out) = announcement_calls w.
Proof.
  intros Hs He Hgt out. subst out. unfold create_announcement.
  destruct (known_teacher w username) eqn:Hk.
  - rewrite gate_passes by exact Hk. rewrite He.
    cbn [of_param py_str]. rewrite (strptime_truthy _ _ Hs), Hs.
    unfold bind. rewrite Hgt. cbn [raise fst snd].
    split; [reflexivity |]. split; [eexists; reflexivity |].
    split; [apply record_announcements | apply record_teacher_calls].
  - match goal with
    | |- context [bind (verify_teacher username) ?k w] =>
        destruct (gate_refuses username k w Hk) as (e & w' & -> & _ & Ha & Hc)
    end.
    cbn [fst snd]. split; [discriminate |].
    split; [eexists; reflexivity | split; assumption].
Qed.

Lemma C4_create_inverted_range_witness :
  fst (create_announcement Sample.may20 Sample.id1 "Exam Week"
         "Finals start Monday" "2025-06-01" (Some "2025-06-10")
         (Some "ms_jones") Sample.empty) = Raise InvalidDateRange
  /\ announcements_collection
       (snd (create_announcement Sample.may20 Sample.id1 "Exam Week"
               "Finals start Monday" "2025-06-01" (Some "2025-06-10")
               (Some "ms_jones") Sample.empty)) = [].
Proof.
  pose proof (C4_create_inverted_range Sample.empty Sample.may20 Sample.id1
                "Exam Week" "Finals start Monday" "2025-06-01" "2025-06-10"
                (Some "ms_jones") (Date.mkdatetime 2025 6 10 0 0 0 0)
                (Date.mkdatetime 2025 6 1 0 0 0 0)
                eq_refl eq_refl eq_refl) as (H1 & _ & H2 & _).
  split; [apply H1; reflexivity | exact H2].
Defined.

(** ** Deletion *)

Lemma matches_by_id (o : list Z) (d : doc) :
  matches (by_id o) d = true <-> d !! "_id" = Some (VOid o).
Proof.
  unfold by_id. cbn [matches]. destruct (d !! "_id") as [v |].
  - rewrite bool_decide_eq_true. split; congruence.
  - rewrite bool_decide_eq_true. split; discriminate.
Qed.

Lemma find_one_none_iff (q : query) (c : list doc) :
  Collection.find_one q c = None <-> Forall (fun d => matches q d = false) c.
Proof.
  unfold Collection.find_one. induction c as [| d c IH]; cbn [List.find].
  - split; [constructor | reflexivity].
  - destruct (matches q d) eqn:Hm.
    + split; [discriminate |]. intros H. inversion H; congruence.
    + rewrite IH. split; [constructor; assumption |].
      intros H. inversion H; assumption.
Qed.

Lemma find_one_some (q : query) (c : list doc) (d : doc) :
  Collection.find_one q c = Some d -> In d c /\ matches q d = true.
Proof. apply List.find_some. Qed.

Lemma delete_one_absent (q : query) (c : list doc) :
  Collection.find_one q c = None -> Collection.delete_one q c = (c, 0).
Proof.
  rewrite find_one_none_iff. induction 1 as [| d c Hd _ IH]; cbn.
  - reflexivity.
  - rewrite Hd, IH. reflexivity.
Qed.

Lemma delete_one_count (q : query) (c : list doc) :
  snd (Collection.delete_one q c) = 0 \/ snd (Collection.delete_one q c) = 1.
Proof.
  induction c as [| d c IH]; cbn.
  - left; reflexivity.
  - destruct (matches q d); [right; reflexivity |].
    destruct (Collection.delete_one q c). exact IH.
Qed.

(** With distinct identifiers, the document deleted was the only match. *)
Lemma delete_one_gone (o : list Z) (c : list doc) :
  unique_ids c ->
  Collection.find_one (by_id o) (fst (Collection.delete_one (by_id o) c)) = None.
Proof.
  unfold unique_ids. induction c as [| d c IH]; cbn [List.map].
  - reflexivity.
  - intros Hnd. apply NoDup_cons in Hnd as [Hnotin Hnd].
    cbn [Collection.delete_one].
    destruct (matches (by_id o) d) eqn:Hm.
    + cbn [fst]. apply find_one_none_iff, Forall_forall. intros d' Hin.
      destruct (matches (by_id o) d') eqn:Hm'; [| reflexivity].
      exfalso. apply Hnotin. apply matches_by_id in Hm, Hm'.
      rewrite Hm, <- Hm'. apply list_elem_of_In, in_map, list_elem_of_In, Hin.
    + specialize (IH Hnd).
      destruct (Collection.delete_one (by_id o) c) as [c' n]. cbn [fst] in *.
      unfold Collection.find_one in *. cbn [List.find]. rewrite Hm. exact IH.
Qed.

(** The delete endpoint past the gate and the identifier check. *)
Lemma delete_announcement_run (w : world) (announcement_id : string)
    (username : option string) (obj_id : list Z) :
  known_teacher w username = true ->
  ObjectId announcement_id = Some obj_id ->
  delete_announcement announcement_id username w
  = let w1 := record (AnnDeleteOne (by_id obj_id))
                (record (TeachersFindOne (py_str (of_param username))) w) in
    let cn := Collection.delete_one (by_id obj_id) (announcements_collection w) in
    (if snd cn =? 0 then Raise NotFound
     else Ok {[ "message" := VStr "Announcement deleted successfully" ]},
     set_announcements (fst cn) w1).
Proof.
  intros Hk Hid. unfold delete_announcement. rewrite gate_passes by exact Hk.
  rewrite Hid. unfold bind, delete_one, by_id. cbn [announcements_collection record].
  destruct (Collection.delete_one _ _) as [c n]. cbn [fst snd].
  destruct (n =? 0); reflexivity.
Qed.

(** C8. For a caller that passes the gate and a well-formed identifier:
    deleting an identifier that matches no document fails with [NotFound]
    and leaves the collection as it was; and after a delete that succeeded,
    a second delete of the same identifier fails with [NotFound] and leaves
    the collection as the first delete left it (identifiers being unique in
    the collection). *)
Theorem C8_delete_not_found (w : world) (announcement_id : string)
    (username : option string) (obj_id : list Z) :
  known_teacher w username = true ->
  ObjectId announcement_id = Some obj_id ->
  (Collection.find_one (by_id obj_id) (announcements_collection w) = None ->
   fst (delete_announcement announcement_id username w) = Raise NotFound
   /\ announcements_collection (snd (delete_announcement announcement_id username w))
      = announcements_collection w)
  /\ (unique_ids (announcements_collection w) ->
      forall (r : doc) (w1 : world),
        delete_announcement announcement_id username w = (Ok r, w1) ->
        fst (delete_announcement announcement_id username w1) = Raise NotFound
        /\ announcements_collection
             (snd (delete_announcement announcement_id username w1))
           = announcements_collection w1).
Proof.
  intros Hk Hid.
  assert (Habsent : forall w0, known_teacher w0 username = true ->
    Collection.find_one (by_id obj_id) (announcements_collection w0) = None ->
    fst (delete_announcement announcement_id username w0) = Raise NotFound
    /\ announcements_collection (snd (delete_announcement announcement_id username w0))
       = announcements_collection w0).
  { intros w0 Hk0 Hnone.
    rewrite (delete_announcement_run _ _ _ _ Hk0 Hid).
    rewrite (delete_one_absent _ _ Hnone). cbn. split; reflexivity. }
  split; [apply Habsent, Hk |].
  intros Huniq r w1 Hdel.
  rewrite (delete_announcement_run _ _ _ _ Hk Hid) in Hdel.
  cbv zeta in Hdel. injection Hdel as _ Hw1.
  apply Habsent.
  - rewrite <- Hw1. exact Hk.
  - rewrite <- Hw1. cbn [announcements_collection set_announcements].
    apply delete_one_gone, Huniq.
Qed.

Lemma C8_delete_not_found_witness :
  (fst (delete_announcement Sample.id2_str (Some "ms_jones") Sample.one)
   = Raise NotFound
   /\ announcements_collection
        (snd (delete_announcement Sample.id2_str (Some "ms_jones") Sample.one))
      = [Sample.exam_week])
  /\ (fst (delete_announcement Sample.id1_str (Some "ms_jones")
             (snd (delete_announcement Sample.id1_str (Some "ms_jones")
                     Sample.one)))
      = Raise NotFound).
Proof.
  split.
  - apply (C8_delete_not_found Sample.one Sample.id2_str (Some "ms_jones")
             Sample.id2 eq_refl eq_refl).
    reflexivity.
  - refine (proj1 (proj2 (C8_delete_not_found Sample.one Sample.id1_str
             (Some "ms_jones") Sample.id1 eq_refl eq_refl) _ _ _ eq_refl)).
    unfold unique_ids. cbn [List.map Sample.one announcements_collection].
    apply NoDup_singleton.
Defined.

(** ** Update *)

Lemma validate_range_run (start exp : value) (w : world) :
  validate_range start exp w
  = (match range_error_of start exp with
     | Some e => Raise e
     | None => Ok tt
     end, w).
Proof.
  unfold validate_range, range_error_of.
  destruct (truthy start && truthy exp); [| reflexivity].
  destruct start as [| s |]; try reflexivity.
  destruct (Date.strptime s); [| reflexivity].
  destruct exp as [| e |]; try reflexivity.
  destruct (Date.strptime e); [| reflexivity].
  destruct (Date.gtb _ _); reflexivity.
Qed.

(** The update endpoint past the gate, the identifier check and the
    lookup of the document. *)
Lemma update_announcement_run (w : world) (now : Date.datetime)
    (announcement_id : string)
    (title message expiration_date start_date username : option string)
    (obj_id : list Z) (announcement : doc) :
  known_teacher w username = true ->
  ObjectId announcement_id = Some obj_id ->
  Collection.find_one (by_id obj_id) (announcements_collection w)
  = Some announcement ->
  update_announcement now announcement_id title message expiration_date
    start_date username w
  = update_outcome now obj_id title message expiration_date start_date
      announcement
      (record (AnnFindOne (by_id obj_id))
         (record (TeachersFindOne (py_str (of_param username))) w)).
Proof.
  intros Hk Hid Hfind. unfold update_announcement.
  rewrite gate_passes by exact Hk. rewrite Hid.
  unfold bind at 1. unfold find_one at 1. fold (by_id obj_id).
  cbn [announcements_collection record]. rewrite Hfind.
  unfold update_outcome, format_error, update_fields.
  set (w1 := record _ (record _ w)).
  assert (Hrest : forall (ud : doc),
    bind (if bool_decide (is_Some (ud !! "start_date"))
             || bool_decide (is_Some (ud !! "expiration_date"))
          then validate_range
                 (py_or (dict_get ud "start_date")
                        (dict_get announcement "start_date"))
                 (py_or (dict_get ud "expiration_date")
                        (dict_get announcement "expiration_date"))
          else ret tt)
      (fun _ =>
         bind (update_one (by_id obj_id)
                 (<["updated_at" := VStr (Date.isoformat now)]> ud))
           (fun modified_count =>
              if modified_count =? 0 then raise UpdateFailed
              else bind (find_one (by_id obj_id))
                     (fun updated =>
                        match updated with
                        | Some updated =>
                            ret (<["_id" := VStr (py_str (dict_get updated "_id"))]>
                                   updated)
                        | None => raise InternalError
                        end))) w1
    = match range_error ud announcement with
      | Some e => (Raise e, w1)
      | None =>
          let update_data := <["updated_at" := VStr (Date.isoformat now)]> ud in
          let cn := Collection.update_one (by_id obj_id) update_data
                      (announcements_collection w1) in
          let w' := set_announcements (fst cn)
                      (record (AnnUpdateOne (by_id obj_id) update_data) w1) in
          if snd cn =? 0 then (Raise UpdateFailed, w')
          else
            (match Collection.find_one (by_id obj_id) (fst cn) with
             | Some updated =>
                 Ok (<["_id" := VStr (py_str (dict_get updated "_id"))]> updated)
             | None => Raise InternalError
             end, record (AnnFindOne (by_id obj_id)) w')
      end).
  { intros ud. unfold range_error, bind at 1.
    destruct (bool_decide _ || bool_decide _).
    - rewrite validate_range_run. destruct (range_error_of _ _); [reflexivity |].
      unfold bind, update_one, find_one. cbv zeta.
      destruct (Collection.update_one _ _ _) as [c n]. cbn [fst snd].
      destruct (n =? 0); [reflexivity |]. cbn [announcements_collection set_announcements].
      destruct (Collection.find_one _ c); reflexivity.
    - cbn [ret]. unfold bind, update_one, find_one. cbv zeta.
      destruct (Collection.update_one _ _ _) as [c n]. cbn [fst snd].
      destruct (n =? 0); [reflexivity |]. cbn [announcements_collection set_announcements].
      destruct (Collection.find_one _ c); reflexivity. }
  cbv zeta.
  destruct (truthy (of_param expiration_date)).
  - destruct (Date.strptime (py_str (of_param expiration_date))).
    + destruct start_date as [s |].
      * destruct (truthy (VStr s)).
        -- destruct (Date.strptime s).
           ++ unfold bind at 1 2. cbn [ret]. apply Hrest.
           ++ reflexivity.
        -- unfold bind at 1 2. cbn [ret]. apply Hrest.
      * unfold bind at 1 2. cbn [ret]. apply Hrest.
    + reflexivity.
  - destruct start_date as [s |].
    + destruct (truthy (VStr s)).
      * destruct (Date.strptime s).
        -- unfold bind at 1 2. cbn [ret]. apply Hrest.
        -- reflexivity.
      * unfold bind at 1 2. cbn [ret]. apply Hrest.
    + unfold bind at 1 2. cbn [ret]. apply Hrest.
Qed.

Lemma update_fields_no_id (title message expiration_date start_date : option string) :
  update_fields title message expiration_date start_date !! "_id" = None.
Proof.
  unfold update_fields.
  destruct (truthy (of_param title)), (truthy (of_param message)),
    (truthy (of_param expiration_date)), start_date as [s |];
    try destruct (truthy (VStr s));
    repeat (rewrite lookup_insert_ne by discriminate); apply lookup_empty.
Qed.

Lemma update_fields_no_stamp (title message expiration_date start_date : option string) :
  update_fields title message expiration_date start_date !! "updated_at" = None.
Proof.
  unfold update_fields.
  destruct (truthy (of_param title)), (truthy (of_param message)),
    (truthy (of_param expiration_date)), start_date as [s |];
    try destruct (truthy (VStr s));
    repeat (rewrite lookup_insert_ne by discriminate); apply lookup_empty.
Qed.

(** [$set] of fields other than [_id] keeps the identifier. *)
Lemma set_keeps_id (upd d : doc) :
  upd !! "_id" = None -> (upd ∪ d) !! "_id" = d !! "_id".
Proof. intros H. rewrite lookup_union, H. apply (left_id None _). Qed.

Lemma set_keeps_match (o : list Z) (upd d : doc) :
  upd !! "_id" = None -> matches (by_id o) (upd ∪ d) = matches (by_id o) d.
Proof.
  intros H. unfold by_id. cbn [matches]. rewrite (set_keeps_id _ _ H). reflexivity.
Qed.

Lemma update_one_found (o : list Z) (upd : doc) (c : list doc) (d : doc) :
  Collection.find_one (by_id o) c = Some d ->
  upd !! "_id" = None ->
  snd (Collection.update_one (by_id o) upd c)
  = (if bool_decide (upd ∪ d = d) then 0 else 1)
  /\ Collection.find_one (by_id o) (fst (Collection.update_one (by_id o) upd c))
     = Some (upd ∪ d).
Proof.
  intros Hfind Hid. unfold Collection.find_one in *.
  induction c as [| d0 c IH]; [discriminate |].
  cbn [List.find Collection.update_one] in *.
  destruct (matches (by_id o) d0) eqn:Hm.
  - injection Hfind as ->. cbn [fst snd List.find].
    rewrite (set_keeps_match _ _ _ Hid), Hm. split; reflexivity.
  - specialize (IH Hfind).
    destruct (Collection.update_one (by_id o) upd c) as [c' n].
    cbn [fst snd List.find] in *. rewrite Hm. exact IH.
Qed.

Lemma update_one_absent (q : query) (upd : doc) (c : list doc) :
  Collection.find_one q c = None -> Collection.update_one q upd c = (c, 0).
Proof.
  rewrite find_one_none_iff. induction 1 as [| d c Hd _ IH]; cbn.
  - reflexivity.
  - rewrite Hd, IH. reflexivity.
Qed.

(** A write that changes no document leaves the collection as it was. *)
Lemma update_one_unmodified (q : query) (upd : doc) (c : list doc) :
  snd (Collection.update_one q upd c) = 0 ->
  fst (Collection.update_one q upd c) = c.
Proof.
  induction c as [| d c IH]; cbn [Collection.update_one].
  - reflexivity.
  - destruct (matches q d).
    + cbn [fst snd]. case_bool_decide as Heq; [| discriminate].
      intros _. rewrite Heq. reflexivity.
    + destruct (Collection.update_one q upd c) as [c' n]. cbn [fst snd] in *.
      intros Hn. rewrite (IH Hn). reflexivity.
Qed.

(** What a successful update tells about the request. *)
Lemma update_announcement_ok_inv (w w' : world) (now : Date.datetime)
    (announcement_id : string)
    (title message expiration_date start_date username : option string)
    (r : doc) :
  update_announcement now announcement_id title message expiration_date
    start_date username w = (Ok r, w') ->
  exists obj_id announcement,
    known_teacher w username = true
    /\ ObjectId announcement_id = Some obj_id
    /\ Collection.find_one (by_id obj_id) (announcements_collection w)
       = Some announcement.
Proof.
  intros H. destruct (known_teacher w username) eqn:Hk.
  - unfold update_announcement in H. rewrite gate_passes in H by exact Hk.
    destruct (ObjectId announcement_id) as [obj_id |]; [| discriminate].
    unfold bind at 1 in H. unfold find_one at 1 in H. fold (by_id obj_id) in H.
    cbn [announcements_collection record] in H.
    destruct (Collection.find_one (by_id obj_id) (announcements_collection w))
      as [d |] eqn:Hd; [| discriminate].
    exists obj_id, d. split; [reflexivity | split; [reflexivity | exact Hd]].
  - unfold update_announcement in H.
    match type of H with
    | bind (verify_teacher username) ?k w = _ =>
        destruct (gate_refuses username k w Hk) as (e & w0 & Hr & _)
    end.
    rewrite Hr in H. discriminate.
Qed.

Lemma stamp_written (x : value) (upd d : doc) :
  (<["updated_at" := x]> upd ∪ d) !! "updated_at" = Some x.
Proof. apply lookup_union_Some_l, lookup_insert_eq. Qed.

Lemma stamped_no_id (x : value) (upd : doc) :
  upd !! "_id" = None -> <["updated_at" := x]> upd !! "_id" = None.
Proof. intros H. rewrite lookup_insert_ne by discriminate. exact H. Qed.

(** A successful update, read back from the outcome. *)
Lemma update_outcome_ok_inv (now : Date.datetime) (obj_id : list Z)
    (title message expiration_date start_date : option string)
    (announcement : doc) (w w' : world) (r : doc) :
  Collection.find_one (by_id obj_id) (announcements_collection w)
  = Some announcement ->
  update_outcome now obj_id title message expiration_date start_date
    announcement w = (Ok r, w') ->
  let upd := <["updated_at" := VStr (Date.isoformat now)]>
               (update_fields title message expiration_date start_date) in
  format_error expiration_date start_date = None
  /\ range_error (update_fields title message expiration_date start_date)
       announcement = None
  /\ r = <["_id" := VStr (py_str (dict_get (upd ∪ announcement) "_id"))]>
           (upd ∪ announcement)
  /\ announcements_collection w'
     = fst (Collection.update_one (by_id obj_id) upd (announcements_collection w))
  /\ teachers_collection w' = teachers_collection w
  /\ Collection.find_one (by_id obj_id) (announcements_collection w')
     = Some (upd ∪ announcement).
Proof.
  intros Hfind H upd. unfold update_outcome in H.
  destruct (format_error _ _); [discriminate |].
  destruct (range_error _ _); [discriminate |].
  cbv zeta in H. fold upd in H.
  destruct (update_one_found obj_id upd _ _ Hfind) as [_ Hf].
  { apply stamped_no_id, update_fields_no_id. }
  destruct (snd (Collection.update_one _ _ _) =? 0); [discriminate |].
  rewrite Hf in H. injection H as Hr Hw. subst r w'.
  cbn [announcements_collection teachers_collection record set_announcements].
  repeat split. exact Hf.
Qed.

(** A write of the timestamp the document already has changes nothing. *)
Lemma stamp_again (x : value) (d : doc) :
  d !! "updated_at" = Some x -> <["updated_at" := x]> ∅ ∪ d = d.
Proof.
  intros H. apply map_eq. intros i. rewrite lookup_union.
  destruct (decide ("updated_at" = i)) as [<- | Hne].
  - rewrite lookup_insert_eq, H. reflexivity.
  - rewrite lookup_insert_ne, lookup_empty by exact Hne.
    apply (left_id None _).
Qed.

(** C10, as the code has it. Every successful update writes [updated_at]
    with the current timestamp, in the document returned and in the stored
    one, whichever fields were supplied. An update with no content field
    (title, message and expiration date omitted or empty, start date
    omitted), by a caller that passes the gate, on a stored document,
    succeeds and stamps the document when the stored [updated_at] is not
    already the current timestamp; when it is, the write changes nothing
    and the update fails with [UpdateFailed], the collection being left as
    it was. *)
Theorem C10_update_stamps (w : world) (now : Date.datetime)
    (announcement_id : string)
    (title message expiration_date start_date username : option string) :
  (forall (r : doc) (w' : world),
     update_announcement now announcement_id title message expiration_date
       start_date username w = (Ok r, w') ->
     r !! "updated_at" = Some (VStr (Date.isoformat now))
     /\ exists obj_id stored,
          ObjectId announcement_id = Some obj_id
          /\ Collection.find_one (by_id obj_id) (announcements_collection w')
             = Some stored
          /\ stored !! "updated_at" = Some (VStr (Date.isoformat now)))
  /\ (forall (obj_id : list Z) (announcement : doc),
        known_teacher w username = true ->
        ObjectId announcement_id = Some obj_id ->
        Collection.find_one (by_id obj_id) (announcements_collection w)
        = Some announcement ->
        truthy (of_param title) = false ->
        truthy (of_param message) = false ->
        truthy (of_param expiration_date) = false ->
        start_date = None ->
        (announcement !! "updated_at" <> Some (VStr (Date.isoformat now)) ->
         exists (r : doc) (w' : world),
           update_announcement now announcement_id title message
             expiration_date start_date username w = (Ok r, w')
           /\ r !! "updated_at" = Some (VStr (Date.isoformat now)))
        /\ (announcement !! "updated_at" = Some (VStr (Date.isoformat now)) ->
            fst (update_announcement now announcement_id title message
                   expiration_date start_date username w)
            = Raise UpdateFailed
            /\ announcements_collection
                 (snd (update_announcement now announcement_id title message
                         expiration_date start_date username w))
               = announcements_collection w)).
Proof.
  split.
  - intros r w' H.
    destruct (update_announcement_ok_inv _ _ _ _ _ _ _ _ _ _ H)
      as (obj_id & d & Hk & Hid & Hfind).
    rewrite (update_announcement_run _ _ _ _ _ _ _ _ _ _ Hk Hid Hfind) in H.
    apply update_outcome_ok_inv in H; [| exact Hfind].
    destruct H as (_ & _ & Hr & _ & _ & Hstored).
    split.
    + rewrite Hr, lookup_insert_ne by discriminate. apply stamp_written.
    + exists obj_id. eexists. split; [exact Hid |].
      split; [exact Hstored | apply stamp_written].
  - intros obj_id d Hk Hid Hfind Ht Hm He ->.
    rewrite (update_announcement_run _ _ _ _ _ _ _ _ _ _ Hk Hid Hfind).
    unfold update_outcome, format_error, update_fields.
    rewrite Ht, Hm, He. cbv zeta.
    replace (range_error ∅ d) with (@None HTTPException) by reflexivity.
    set (upd := <["updated_at" := VStr (Date.isoformat now)]> ∅ : doc).
    cbn [announcements_collection record].
    destruct (update_one_found obj_id upd _ _ Hfind) as [Hn Hf].
    { apply stamped_no_id, lookup_empty. }
    rewrite Hn, Hf. split.
    + intros Hstamp. rewrite bool_decide_eq_false_2.
      * cbn [Z.eqb]. eexists _, _. split; [reflexivity |].
        rewrite lookup_insert_ne by discriminate. apply stamp_written.
      * intros Heq. apply Hstamp. rewrite <- Heq. apply stamp_written.
    + intros Hstamp. rewrite bool_decide_eq_true_2 by apply stamp_again, Hstamp.
      cbn [Z.eqb fst snd announcements_collection set_announcements].
      split; [reflexivity |].
      apply update_one_unmodified. rewrite Hn.
      rewrite bool_decide_eq_true_2 by apply stamp_again, Hstamp. reflexivity.
Qed.

Lemma C10_update_stamps_witness :
  (exists (r : doc) (w' : world),
     update_announcement Sample.may20 Sample.id1_str None (Some "") None None
       (Some "ms_jones") Sample.one = (Ok r, w')
     /\ r !! "updated_at" = Some (VStr "2025-05-20T09:30:00"))
  /\ (fst (update_announcement Sample.may20 Sample.id1_str None (Some "") None
             None (Some "ms_jones")
             (mkworld [<["updated_at" := VStr "2025-05-20T09:30:00"]>
                         Sample.exam_week] Sample.teachers []))
      = Raise UpdateFailed)
  /\ (forall (r : doc) (w' : world),
        update_announcement Sample.may20 Sample.id1_str (Some "Exam Fortnight")
          None None None (Some "ms_jones") Sample.one = (Ok r, w') ->
        r !! "updated_at" = Some (VStr "2025-05-20T09:30:00")).
Proof.
  split; [| split].
  - apply (proj2 (C10_update_stamps Sample.one Sample.may20 Sample.id1_str
                    None (Some "") None None (Some "ms_jones"))
             Sample.id1 Sample.exam_week
             eq_refl eq_refl eq_refl eq_refl eq_refl eq_refl eq_refl).
    intros H. vm_compute in H. discriminate H.
  - assert (Hfind : Collection.find_one (by_id Sample.id1)
                      [<["updated_at" := VStr "2025-05-20T09:30:00"]>
                         Sample.exam_week]
                    = Some (<["updated_at" := VStr "2025-05-20T09:30:00"]>
                              Sample.exam_week)) by vm_refl.
    apply (proj2 (C10_update_stamps
                    (mkworld [<["updated_at" := VStr "2025-05-20T09:30:00"]>
                                Sample.exam_week] Sample.teachers [])
                    Sample.may20 Sample.id1_str
                    None (Some "") None None (Some "ms_jones"))
             Sample.id1
             (<["updated_at" := VStr "2025-05-20T09:30:00"]> Sample.exam_week)
             eq_refl eq_refl Hfind eq_refl eq_refl eq_refl eq_refl).
    apply lookup_insert_eq.
  - intros r w' H.
    apply (proj1 (C10_update_stamps Sample.one Sample.may20 Sample.id1_str
                    (Some "Exam Fortnight") None None None (Some "ms_jones"))
             r w' H).
Defined.

(** The claim C10 as it is worded fails: an update with no content field
    succeeds, and the same update made again at the same timestamp
    modifies nothing and fails with [UpdateFailed]. *)
Lemma C10_same_timestamp_update_fails :
  let first := update_announcement Sample.may20 Sample.id1_str None None None
                 None (Some "ms_jones") Sample.one in
  let second := update_announcement Sample.may20 Sample.id1_str None None None
                  None (Some "ms_jones") (snd first) in
  (exists r, fst first = Ok r)
  /\ fst second = Raise UpdateFailed
  /\ announcements_collection (snd second)
     = announcements_collection (snd first).
Proof.
  intros first second.
  split; [apply is_ok_ex; vm_refl |]. split; vm_refl.
Qed.

Example update_example :
  fst (update_announcement Sample.may20 Sample.id1_str (Some "Exam Fortnight")
         None None None (Some "ms_jones") Sample.one)
  = Ok (<["_id" := VStr Sample.id1_str]> (
        <["updated_at" := VStr "2025-05-20T09:30:00"]> (
        <["title" := VStr "Exam Fortnight"]> Sample.exam_week))).
Proof. vm_refl. Qed.

(** *** Repeating an update *)

Lemma union_restamp (a b : value) (upd d : doc) :
  <["updated_at" := a]> upd ∪ (<["updated_at" := b]> upd ∪ d)
  = <["updated_at" := a]> upd ∪ d.
Proof.
  apply map_eq. intros i. rewrite !lookup_union.
  destruct (decide ("updated_at" = i)) as [<- | Hne].
  - rewrite !lookup_insert_eq. destruct (d !! "updated_at"); reflexivity.
  - rewrite !lookup_insert_ne by exact Hne.
    destruct (upd !! i), (d !! i); reflexivity.
Qed.

Lemma strip_restamp (a b : value) (upd d : doc) :
  delete "updated_at" (<["updated_at" := a]> upd ∪ (<["updated_at" := b]> upd ∪ d))
  = delete "updated_at" (<["updated_at" := b]> upd ∪ d).
Proof.
  apply map_eq. intros i.
  destruct (decide ("updated_at" = i)) as [<- | Hne].
  - rewrite !lookup_delete_eq. reflexivity.
  - rewrite !lookup_delete_ne by exact Hne. rewrite !lookup_union.
    rewrite !lookup_insert_ne by exact Hne.
    destruct (upd !! i), (d !! i); reflexivity.
Qed.

(** Two writes of the same fields, stamped [b] then [a], amount to the
    write stamped [a]. *)
Lemma update_one_twice (o : list Z) (a b : value) (upd : doc) (c : list doc) :
  upd !! "_id" = None ->
  fst (Collection.update_one (by_id o) (<["updated_at" := a]> upd)
         (fst (Collection.update_one (by_id o) (<["updated_at" := b]> upd) c)))
  = fst (Collection.update_one (by_id o) (<["updated_at" := a]> upd) c).
Proof.
  intros Hid. induction c as [| d c IH]; [reflexivity |].
  cbn [Collection.update_one].
  destruct (matches (by_id o) d) eqn:Hm.
  - cbn [fst Collection.update_one].
    rewrite set_keeps_match by (apply stamped_no_id, Hid). rewrite Hm.
    cbn [fst]. rewrite union_restamp. reflexivity.
  - destruct (Collection.update_one (by_id o) (<["updated_at" := b]> upd) c)
      as [c1 n1].
    cbn [fst Collection.update_one] in *. rewrite Hm.
    destruct (Collection.update_one (by_id o) (<["updated_at" := a]> upd) c1)
      as [c2 n2].
    destruct (Collection.update_one (by_id o) (<["updated_at" := a]> upd) c)
      as [c3 n3].
    cbn [fst] in *. rewrite IH. reflexivity.
Qed.

(** The second write only touches [updated_at]. *)
Lemma update_one_twice_strip (o : list Z) (a b : value) (upd : doc) (c : list doc) :
  upd !! "_id" = None ->
  List.map (delete "updated_at")
    (fst (Collection.update_one (by_id o) (<["updated_at" := a]> upd)
            (fst (Collection.update_one (by_id o) (<["updated_at" := b]> upd) c))))
  = List.map (delete "updated_at")
      (fst (Collection.update_one (by_id o) (<["updated_at" := b]> upd) c)).
Proof.
  intros Hid. induction c as [| d c IH]; [reflexivity |].
  cbn [Collection.update_one].
  destruct (matches (by_id o) d) eqn:Hm.
  - cbn [fst Collection.update_one].
    rewrite set_keeps_match by (apply stamped_no_id, Hid). rewrite Hm.
    cbn [fst List.map]. rewrite strip_restamp. reflexivity.
  - destruct (Collection.update_one (by_id o) (<["updated_at" := b]> upd) c)
      as [c1 n1].
    cbn [fst Collection.update_one] in *. rewrite Hm.
    destruct (Collection.update_one (by_id o) (<["updated_at" := a]> upd) c1)
      as [c2 n2].
    cbn [fst List.map] in *. rewrite IH. reflexivity.
Qed.

Lemma range_error_of_falsy_l (start exp : value) :
  truthy start = false -> range_error_of start exp = None.
Proof. intros H. unfold range_error_of. rewrite H. reflexivity. Qed.

Lemma range_error_of_falsy_r (start exp : value) :
  truthy exp = false -> range_error_of start exp = None.
Proof.
  intros H. unfold range_error_of. rewrite H, andb_false_r. reflexivity.
Qed.

Lemma dict_get_written (x : value) (upd d : doc) (k : string) :
  k <> "updated_at" ->
  dict_get (<["updated_at" := x]> upd ∪ d) k
  = match upd !! k with
    | Some v => v
    | None => dict_get d k
    end.
Proof.
  intros Hk. unfold dict_get. rewrite lookup_union.
  rewrite lookup_insert_ne by congruence.
  destruct (upd !! k), (d !! k); reflexivity.
Qed.

(** The value the range check reads for a field, once the fields of
    [upd] have been written: the same as before the write, or a falsy one. *)
Lemma effective_again (x : value) (upd d : doc) (k : string) :
  k <> "updated_at" ->
  let before := py_or (dict_get upd k) (dict_get d k) in
  let after := py_or (dict_get upd k)
                 (dict_get (<["updated_at" := x]> upd ∪ d) k) in
  after = before \/ truthy after = false.
Proof.
  intros Hk. cbv zeta. rewrite (dict_get_written _ _ _ _ Hk).
  unfold py_or, dict_get. destruct (upd !! k) as [v |]; simpl.
  - destruct (truthy v) eqn:Hv; [left; reflexivity | right; exact Hv].
  - left; reflexivity.
Qed.

(** A range check that passed passes again after the write. *)
Lemma range_error_again (x : value) (upd d : doc) :
  range_error upd d = None ->
  range_error upd (<["updated_at" := x]> upd ∪ d) = None.
Proof.
  unfold range_error.
  destruct (bool_decide _ || bool_decide _); [| reflexivity].
  intros H.
  destruct (effective_again x upd d "start_date") as [-> | Hs]; [discriminate | |].
  - destruct (effective_again x upd d "expiration_date") as [-> | He];
      [discriminate | exact H |].
    apply range_error_of_falsy_r, He.
  - apply range_error_of_falsy_l, Hs.
Qed.

Lemma update_outcome_store (now : Date.datetime) (obj_id : list Z)
    (title message expiration_date start_date : option string)
    (announcement : doc) (w : world) :
  format_error expiration_date start_date = None ->
  range_error (update_fields title message expiration_date start_date)
    announcement = None ->
  announcements_collection
    (snd (update_outcome now obj_id title message expiration_date start_date
            announcement w))
  = fst (Collection.update_one (by_id obj_id)
           (<["updated_at" := VStr (Date.isoformat now)]>
              (update_fields title message expiration_date start_date))
           (announcements_collection w)).
Proof.
  intros Hf Hr. unfold update_outcome. rewrite Hf, Hr. cbv zeta.
  destruct (snd _ =? 0); reflexivity.
Qed.

Lemma known_teacher_same (w w' : world) (username : option string) :
  teachers_collection w' = teachers_collection w ->
  known_teacher w' username = known_teacher w username.
Proof. intros H. unfold known_teacher. rewrite H. reflexivity. Qed.

Lemma update_announcement_absent (w : world) (now : Date.datetime)
    (announcement_id : string)
    (title message expiration_date start_date username : option string)
    (obj_id : list Z) :
  known_teacher w username = true ->
  ObjectId announcement_id = Some obj_id ->
  Collection.find_one (by_id obj_id) (announcements_collection w) = None ->
  update_announcement now announcement_id title message expiration_date
    start_date username w
  = (Raise NotFound,
     record (AnnFindOne (by_id obj_id))
       (record (TeachersFindOne (py_str (of_param username))) w)).
Proof.
  intros Hk Hid Hfind. unfold update_announcement.
  rewrite gate_passes by exact Hk. rewrite Hid.
  unfold bind at 1. unfold find_one at 1. fold (by_id obj_id).
  cbn [announcements_collection record]. rewrite Hfind. reflexivity.
Qed.

Lemma keeps_ret {A} (a : A) : keeps_teachers (ret a).
Proof. intros w. reflexivity. Qed.

Lemma keeps_raise {A} (e : HTTPException) : keeps_teachers (@raise A e).
Proof. intros w. reflexivity. Qed.

Lemma keeps_bind {A B} (m : M A) (k : A -> M B) :
  keeps_teachers m -> (forall a, keeps_teachers (k a)) ->
  keeps_teachers (bind m k).
Proof.
  intros Hm Hk w. unfold bind. specialize (Hm w).
  destruct (m w) as [[a | e] w1]; cbn [snd] in *.
  - rewrite (Hk a w1). exact Hm.
  - exact Hm.
Qed.

Lemma keeps_teachers_find_one (u : string) : keeps_teachers (teachers_find_one u).
Proof. intros w. reflexivity. Qed.

Lemma keeps_find_one (q : query) : keeps_teachers (find_one q).
Proof. intros w. reflexivity. Qed.

Lemma keeps_update_one (q : query) (upd : doc) : keeps_teachers (update_one q upd).
Proof.
  intros w. unfold update_one.
  destruct (Collection.update_one q upd (announcements_collection w)).
  reflexivity.
Qed.

Lemma keeps_verify_teacher (username : option string) :
  keeps_teachers (verify_teacher username).
Proof.
  unfold verify_teacher. destruct (negb (truthy (of_param username))).
  - apply keeps_raise.
  - apply keeps_bind; [apply keeps_teachers_find_one |].
    intros teacher. destruct (negb teacher); [apply keeps_raise | apply keeps_ret].
Qed.

Lemma keeps_validate_range (start exp : value) :
  keeps_teachers (validate_range start exp).
Proof. intros w. rewrite validate_range_run. reflexivity. Qed.

(** An update request leaves the teachers collection as it was. *)
Lemma update_announcement_teachers (now : Date.datetime)
    (announcement_id : string)
    (title message expiration_date start_date username : option string) :
  keeps_teachers (update_announcement now announcement_id title message
                    expiration_date start_date username).
Proof.
  unfold update_announcement.
  apply keeps_bind; [apply keeps_verify_teacher | intros _].
  destruct (ObjectId announcement_id) as [obj_id |]; [| apply keeps_raise].
  apply keeps_bind; [apply keeps_find_one | intros [announcement |]];
    [| apply keeps_raise].
  cbv zeta.
  apply keeps_bind.
  { destruct (truthy (of_param expiration_date)); [| apply keeps_ret].
    destruct (Date.strptime _); [apply keeps_ret | apply keeps_raise]. }
  intros ud1. apply keeps_bind.
  { destruct start_date as [s |]; [| apply keeps_ret].
    destruct (truthy (VStr s)); [| apply keeps_ret].
    destruct (Date.strptime s); [apply keeps_ret | apply keeps_raise]. }
  intros ud2. apply keeps_bind.
  { destruct (_ || _); [apply keeps_validate_range | apply keeps_ret]. }
  intros _. apply keeps_bind; [apply keeps_update_one | intros n].
  destruct (n =? 0); [apply keeps_raise |].
  apply keeps_bind; [apply keeps_find_one | intros [updated |]];
    [apply keeps_ret | apply keeps_raise].
Qed.

(** The collection an update request leaves, whatever its outcome. *)
Lemma update_announcement_collection (w : world) (now : Date.datetime)
    (announcement_id : string)
    (title message expiration_date start_date username : option string) :
  announcements_collection
    (snd (update_announcement now announcement_id title message
            expiration_date start_date username w))
  = updated_collection now announcement_id title message expiration_date
      start_date (known_teacher w username) (announcements_collection w).
Proof.
  unfold updated_collection. destruct (known_teacher w username) eqn:Hk.
  - destruct (ObjectId announcement_id) as [obj_id |] eqn:Hid.
    + destruct (Collection.find_one (by_id obj_id) (announcements_collection w))
        as [d |] eqn:Hfind.
      * rewrite (update_announcement_run _ _ _ _ _ _ _ _ _ _ Hk Hid Hfind).
        destruct (format_error expiration_date start_date) eqn:Hf;
          [unfold update_outcome; rewrite Hf; reflexivity |].
        destruct (range_error
                    (update_fields title message expiration_date start_date) d)
          eqn:Hr; [unfold update_outcome; rewrite Hf, Hr; reflexivity |].
        rewrite (update_outcome_store _ _ _ _ _ _ _ _ Hf Hr). reflexivity.
      * rewrite (update_announcement_absent _ _ _ _ _ _ _ _ _ Hk Hid Hfind).
        reflexivity.
    + unfold update_announcement. rewrite gate_passes by exact Hk.
      rewrite Hid. reflexivity.
  - unfold update_announcement.
    match goal with
    | |- context [bind (verify_teacher username) ?k w] =>
        destruct (gate_refuses username k w Hk) as (e & w' & -> & _ & Ha & _)
    end.
    exact Ha.
Qed.

(** Two updates with the same fields, stamped one after the other, on any
    collection. *)
Lemma updated_collection_twice (t1 t2 : Date.datetime) (announcement_id : string)
    (title message expiration_date start_date : option string)
    (known : bool) (c : list doc) :
  let once := updated_collection t1 announcement_id title message
                expiration_date start_date known c in
  let twice := updated_collection t2 announcement_id title message
                 expiration_date start_date known once in
  twice = updated_collection t2 announcement_id title message expiration_date
            start_date known c
  /\ List.map (delete "updated_at") twice = List.map (delete "updated_at") once.
Proof.
  cbv zeta. unfold updated_collection.
  destruct known; [| split; reflexivity].
  destruct (ObjectId announcement_id) as [obj_id |]; [| split; reflexivity].
  destruct (Collection.find_one (by_id obj_id) c) as [d |] eqn:Hfind;
    [| rewrite Hfind; split; reflexivity].
  destruct (format_error expiration_date start_date) eqn:Hf;
    [rewrite Hfind; split; reflexivity |].
  destruct (range_error (update_fields title message expiration_date start_date)
              d) eqn:Hr; [rewrite Hfind, Hr; split; reflexivity |].
  destruct (update_one_found obj_id
              (<["updated_at" := VStr (Date.isoformat t1)]>
                 (update_fields title message expiration_date start_date))
              c d Hfind) as [_ Hfind1].
  { apply stamped_no_id, update_fields_no_id. }
  rewrite Hfind1, (range_error_again _ _ _ Hr). split.
  - apply update_one_twice, update_fields_no_id.
  - apply update_one_twice_strip, update_fields_no_id.
Qed.

(** C9, as the code has it. Calling update a second time with the same
    identifier and the same fields leaves the collection in the state
    that a single call made at the time of the second would have left
    it in; the collection after the two calls differs from the one after
    the first call in [updated_at] only, which holds the timestamp of the
    last call that wrote. This holds whatever the outcome of either
    call. *)
Theorem C9_update_repeated (w : world) (t1 t2 : Date.datetime)
    (announcement_id : string)
    (title message expiration_date start_date username : option string) :
  let w1 := snd (update_announcement t1 announcement_id title message
                   expiration_date start_date username w) in
  let w2 := snd (update_announcement t2 announcement_id title message
                   expiration_date start_date username w1) in
  announcements_collection w2
  = announcements_collection
      (snd (update_announcement t2 announcement_id title message
              expiration_date start_date username w))
  /\ List.map (delete "updated_at") (announcements_collection w2)
     = List.map (delete "updated_at") (announcements_collection w1).
Proof.
  intros w1 w2. subst w2.
  rewrite !update_announcement_collection.
  assert (Hk : known_teacher w1 username = known_teacher w username).
  { apply known_teacher_same. subst w1. apply update_announcement_teachers. }
  rewrite Hk. subst w1. rewrite update_announcement_collection.
  apply updated_collection_twice.
Qed.


(** The claim C9 as it is worded fails: two calls with the same identifier
    and fields, a day apart, both succeed, and the stored document after
    the second is not the one the first call left. *)
Lemma C9_update_not_idempotent :
  let once := update_announcement Sample.may20 Sample.id1_str
                (Some "Exam Fortnight") None None None
                (Some "ms_jones") Sample.one in
  let twice := update_announcement Sample.may21 Sample.id1_str
                 (Some "Exam Fortnight") None None None
                 (Some "ms_jones") (snd once) in
  (exists r, fst once = Ok r) /\ (exists r, fst twice = Ok r)
  /\ announcements_collection (snd twice) <> announcements_collection (snd once).
Proof.
  intros once twice. split; [| split].
  - apply is_ok_ex. vm_refl.
  - apply is_ok_ex. vm_refl.
  - intros H.
    assert (H1 : only (announcements_collection (snd twice)) "updated_at"
                 = Some (VStr "2025-05-21T10:00:00")) by vm_refl.
    assert (H2 : only (announcements_collection (snd once)) "updated_at"
                 = Some (VStr "2025-05-20T09:30:00")) by vm_refl.
    rewrite H, H2 in H1. discriminate H1.
Qed.

(** *** The date-range check of the update *)

(** An update that raises, whatever the error, leaves the announcement
    collection as it was. *)
Lemma update_raise_unchanged (w w' : world) (now : Date.datetime)
    (announcement_id : string)
    (title message expiration_date start_date username : option string)
    (e : HTTPException) :
  update_announcement now announcement_id title message expiration_date
    start_date username w = (Raise e, w') ->
  announcements_collection w' = announcements_collection w.
Proof.
  intros H. destruct (known_teacher w username) eqn:Hk.
  - destruct (ObjectId announcement_id) as [obj_id |] eqn:Hid.
    + destruct (Collection.find_one (by_id obj_id) (announcements_collection w))
        as [d |] eqn:Hfind.
      * rewrite (update_announcement_run _ _ _ _ _ _ _ _ _ _ Hk Hid Hfind) in H.
        unfold update_outcome in H.
        destruct (format_error _ _); [injection H as _ <-; reflexivity |].
        destruct (range_error _ _); [injection H as _ <-; reflexivity |].
        cbv zeta in H. cbn [announcements_collection record] in H.
        set (upd := <["updated_at" := _]> _) in H.
        destruct (update_one_found obj_id upd _ _ Hfind) as [_ Hf].
        { apply stamped_no_id, update_fields_no_id. }
        destruct (snd (Collection.update_one _ _ _) =? 0) eqn:Hn.
        -- injection H as _ <-. cbn [announcements_collection set_announcements].
           apply update_one_unmodified, Z.eqb_eq, Hn.
        -- rewrite Hf in H. discriminate H.
      * rewrite (update_announcement_absent _ _ _ _ _ _ _ _ _ Hk Hid Hfind) in H.
        injection H as _ <-. reflexivity.
    + unfold update_announcement in H. rewrite gate_passes in H by exact Hk.
      rewrite Hid in H. injection H as _ <-. reflexivity.
  - unfold update_announcement in H.
    match type of H with
    | bind (verify_teacher username) ?k w = _ =>
        destruct (gate_refuses username k w Hk) as (e0 & w0 & Hr & _ & Ha & _)
    end.
    rewrite Hr in H. injection H as _ <-. exact Ha.
Qed.

(** C3, at the failing input. The stored announcement starts on
    2025-05-01 and expires on 2025-06-01. An update that clears the start
    date and moves the expiration date to 2025-04-15 would leave a document
    with no start date, yet it is refused with [InvalidDateRange]: the check
    reads the stored start date in place of the cleared one. The same two
    changes made one after the other are both accepted. *)
Theorem C3_cleared_start_still_checked :
  let both := update_announcement Sample.may20 Sample.id1_str None None
                (Some "2025-04-15") (Some "") (Some "ms_jones") Sample.one in
  let clear := update_announcement Sample.may20 Sample.id1_str None None
                 None (Some "") (Some "ms_jones") Sample.one in
  let move := update_announcement Sample.may21 Sample.id1_str None None
                (Some "2025-04-15") None (Some "ms_jones") (snd clear) in
  fst both = Raise InvalidDateRange
  /\ announcements_collection (snd both) = [Sample.exam_week]
  /\ update_fields None None (Some "2025-04-15") (Some "") !! "start_date"
     = Some VNone
  /\ (exists r, fst clear = Ok r)
  /\ (exists r, fst move = Ok r
                /\ r !! "start_date" = Some VNone
                /\ r !! "expiration_date" = Some (VStr "2025-04-15")).
Proof.
  intros both clear move.
  split; [vm_refl |]. split; [vm_refl |]. split; [vm_refl |].
  split; [apply is_ok_ex; vm_refl |].
  apply returned_ex2; vm_refl.
Qed.

(** ** The public listing *)

Lemma value_leb_str (a b : string) : value_leb (VStr a) (VStr b) = String.leb a b.
Proof.
  unfold value_leb, value_compare, String.leb.
  destruct (String.compare a b); reflexivity.
Qed.

(** A document without the field [start_date] is listed exactly from the
    day it is created to the day it expires. *)
Lemma absent_start_active (today D : string) (d : doc) :
  d !! "start_date" = None ->
  d !! "expiration_date" = Some (VStr D) ->
  matches (active_query today) d = String.leb today D.
Proof.
  intros Hs He. unfold active_query. cbn [matches]. rewrite Hs, He.
  cbn [negb orb andb]. apply value_leb_str.
Qed.

(** A document whose [start_date] is null is never listed: the field
    exists, and null is not below any string. *)
Lemma null_start_not_active (today : string) (d : doc) :
  d !! "start_date" = Some VNone ->
  matches (active_query today) d = false.
Proof.
  intros Hs. unfold active_query. cbn [matches]. rewrite Hs. reflexivity.
Qed.

Lemma get_active_announcements_run (now : Date.datetime) (w : world) :
  get_active_announcements now w
  = (Ok (List.map stringify_id
           (Collection.find (active_query (Date.strftime now))
              (announcements_collection w))),
     record (AnnFind (active_query (Date.strftime now))) w).
Proof. reflexivity. Qed.

(** A create call without start date that succeeds. *)
Lemma create_without_start_ok_inv (w w1 : world) (now : Date.datetime)
    (new_id : list Z) (title message expiration_date : string)
    (username : option string) (r : doc) :
  create_announcement now new_id title message expiration_date None username w
  = (Ok r, w1) ->
  announcements_collection w1
  = (announcements_collection w
     ++ [<["_id" := VOid new_id]> (
         <["title" := VStr title]> (
         <["message" := VStr message]> (
         <["expiration_date" := VStr expiration_date]> (
         <["start_date" := VNone]> (
         <["created_by" := of_param username]> (
         <["created_at" := VStr (Date.isoformat now)]> ∅))))))])%list.
Proof.
  intros H. unfold create_announcement in H.
  destruct (known_teacher w username) eqn:Hk.
  - rewrite gate_passes in H by exact Hk.
    destruct (Date.strptime expiration_date); [| discriminate].
    cbn [of_param truthy] in H. unfold bind, ret, insert_one in H.
    injection H as _ <-. reflexivity.
  - match type of H with
    | bind (verify_teacher username) ?k w = _ =>
        destruct (gate_refuses username k w Hk) as (e & w0 & Hr & _)
    end.
    rewrite Hr in H. discriminate.
Qed.

(** C1, as the code has it. An announcement created with the start date
    omitted is stored with [start_date] null, and the public listing never
    returns it, whatever the day and whatever its expiration date: the
    listing after the creation is the listing of the documents that were
    there before. *)
Theorem C1_created_without_start_never_listed (w w1 : world)
    (now today : Date.datetime) (new_id : list Z)
    (title message D : string) (username : option string) (r : doc) :
  create_announcement now new_id title message D None username w = (Ok r, w1) ->
  exists d : doc,
    announcements_collection w1 = (announcements_collection w ++ [d])%list
    /\ d !! "_id" = Some (VOid new_id)
    /\ d !! "expiration_date" = Some (VStr D)
    /\ d !! "start_date" = Some VNone
    /\ matches (active_query (Date.strftime today)) d = false
    /\ fst (get_active_announcements today w1)
       = fst (get_active_announcements today w).
Proof.
  intros H. apply create_without_start_ok_inv in H.
  eexists. split; [exact H |].
  split; [apply lookup_insert_eq |].
  split; [reflexivity |].
  split; [reflexivity |].
  split; [apply null_start_not_active; reflexivity |].
  rewrite !get_active_announcements_run. cbn [fst]. rewrite H.
  unfold Collection.find. rewrite List.filter_app. cbn [List.filter].
  rewrite null_start_not_active by reflexivity.
  rewrite app_nil_r. reflexivity.
Qed.

Lemma C1_created_without_start_never_listed_witness :
  let created := create_announcement Sample.may20 Sample.id1 "Exam Week"
                   "Finals start Monday" "2025-06-01" None (Some "ms_jones")
                   Sample.empty in
  (exists r, fst created = Ok r)
  /\ Date.strftime Sample.may21 = "2025-05-21"
  /\ String.leb "2025-05-21" "2025-06-01" = true
  /\ fst (get_active_announcements Sample.may21 (snd created)) = Ok [].
Proof.
  intros created. split; [apply is_ok_ex; vm_refl |].
  split; [vm_refl |]. split; [vm_refl |].
  destruct (ok_pair created) as [r Hr]; [vm_refl |].
  destruct (C1_created_without_start_never_listed Sample.empty (snd created)
              Sample.may20 Sample.may21 Sample.id1 "Exam Week"
              "Finals start Monday" "2025-06-01" (Some "ms_jones") r Hr)
    as (d & _ & _ & _ & _ & _ & Hlist).
  rewrite Hlist. vm_refl.
Defined.

Lemma update_fields_cleared (title message expiration_date : option string) :
  update_fields title message expiration_date (Some "") !! "start_date"
  = Some VNone.
Proof. unfold update_fields. cbn [truthy String.eqb negb]. apply lookup_insert_eq. Qed.

(** C2, as the code has it. After a successful update that clears the
    start date (the parameter is given and empty), the stored document has
    [start_date] null, not absent, and the public listing returns it on no
    day, whatever its expiration date; a document that never had the
    field is listed up to its expiration date ([absent_start_active]). *)
Theorem C2_cleared_start_never_listed (w w1 : world) (now : Date.datetime)
    (announcement_id : string)
    (title message expiration_date username : option string) (r : doc) :
  update_announcement now announcement_id title message expiration_date
    (Some "") username w = (Ok r, w1) ->
  exists (obj_id : list Z) (stored : doc),
    ObjectId announcement_id = Some obj_id
    /\ Collection.find_one (by_id obj_id) (announcements_collection w1)
       = Some stored
    /\ stored !! "start_date" = Some VNone
    /\ forall today : Date.datetime,
         matches (active_query (Date.strftime today)) stored = false.
Proof.
  intros H.
  destruct (update_announcement_ok_inv _ _ _ _ _ _ _ _ _ _ H)
    as (obj_id & d & Hk & Hid & Hfind).
  rewrite (update_announcement_run _ _ _ _ _ _ _ _ _ _ Hk Hid Hfind) in H.
  apply update_outcome_ok_inv in H; [| exact Hfind].
  destruct H as (_ & _ & _ & _ & _ & Hstored).
  assert (Hnull : (<["updated_at" := VStr (Date.isoformat now)]>
                     (update_fields title message expiration_date (Some ""))
                   ∪ d) !! "start_date" = Some VNone).
  { apply lookup_union_Some_l. rewrite lookup_insert_ne by discriminate.
    apply update_fields_cleared. }
  exists obj_id. eexists. split; [exact Hid |]. split; [exact Hstored |].
  split; [exact Hnull |].
  intros today. apply null_start_not_active, Hnull.
Qed.

Lemma C2_cleared_start_never_listed_witness :
  let cleared := update_announcement Sample.may20 Sample.id1_str None None
                   None (Some "") (Some "ms_jones") Sample.one in
  fst (get_active_announcements Sample.may21 Sample.one)
  = Ok [stringify_id Sample.exam_week]
  /\ (exists r, fst cleared = Ok r
                /\ r !! "expiration_date" = Some (VStr "2025-06-01"))
  /\ String.leb (Date.strftime Sample.may21) "2025-06-01" = true
  /\ fst (get_active_announcements Sample.may21 (snd cleared)) = Ok []
  /\ fst (get_active_announcements Sample.may21
            (mkworld [Sample.exam_week_no_start] Sample.teachers []))
     = Ok [stringify_id Sample.exam_week_no_start].
Proof.
  intros cleared. split; [vm_refl |].
  split; [apply returned_ex; vm_refl |].
  split; [vm_refl |].
  split; [| vm_refl].
  destruct (ok_pair cleared) as [r Hr]; [vm_refl |].
  destruct (C2_cleared_start_never_listed Sample.one (snd cleared)
              Sample.may20 Sample.id1_str None None None (Some "ms_jones")
              r Hr) as (obj_id & stored & Hid & Hfind & _ & Hnever).
  specialize (Hnever Sample.may21).
  assert (Hlen : length (announcements_collection (snd cleared)) = 1%nat)
    by vm_refl.
  rewrite get_active_announcements_run. cbn [fst].
  destruct (announcements_collection (snd cleared)) as [| x [| y c]];
    try discriminate Hlen.
  destruct (find_one_some _ _ _ Hfind) as [[<- | []] _].
  unfold Collection.find. cbn [List.filter]. rewrite Hnever. reflexivity.
Defined.

(** ** Titles *)

Lemma get_all_announcements_store (username : option string) (w : world) :
  announcements_collection (snd (get_all_announcements username w))
  = announcements_collection w.
Proof.
  unfold get_all_announcements. destruct (known_teacher w username) eqn:Hk.
  - rewrite gate_passes by exact Hk. reflexivity.
  - match goal with
    | |- context [bind (verify_teacher username) ?k w] =>
        destruct (gate_refuses username k w Hk) as (e & w' & -> & _ & Ha & _)
    end.
    exact Ha.
Qed.

(** What a create call leaves in the collection: nothing new, or the new
    document, which carries the title given. *)
Lemma create_announcement_store (w : world) (now : Date.datetime)
    (new_id : list Z) (title message expiration_date : string)
    (start_date username : option string) :
  let w' := snd (create_announcement now new_id title message expiration_date
                   start_date username w) in
  announcements_collection w' = announcements_collection w
  \/ exists d : doc,
       announcements_collection w' = (announcements_collection w ++ [d])%list
       /\ d !! "title" = Some (VStr title).
Proof.
  cbv zeta. unfold create_announcement.
  destruct (known_teacher w username) eqn:Hk.
  - rewrite gate_passes by exact Hk.
    destruct (Date.strptime expiration_date); [| left; reflexivity].
    assert (Hd : forall d0 : doc,
      (<["_id" := VOid new_id]> (<["title" := VStr title]> d0)) !! "title"
      = Some (VStr title)).
    { intros d0. rewrite lookup_insert_ne by discriminate.
      apply lookup_insert_eq. }
    destruct (truthy (of_param start_date)).
    + destruct (Date.strptime (py_str (of_param start_date))).
      * unfold bind at 1. destruct (Date.gtb _ _); [left; reflexivity |].
        right. eexists. split; [reflexivity | apply Hd].
      * left; reflexivity.
    + right. eexists. split; [reflexivity | apply Hd].
  - match goal with
    | |- context [bind (verify_teacher username) ?k w] =>
        destruct (gate_refuses username k w Hk) as (e & w' & -> & _ & Ha & _)
    end.
    left. exact Ha.
Qed.

Lemma update_one_Forall (P : doc -> Prop) (q : query) (upd : doc) (c : list doc) :
  (forall d, P d -> P (upd ∪ d)) ->
  Forall P c -> Forall P (fst (Collection.update_one q upd c)).
Proof.
  intros Hupd. induction 1 as [| d c Hd Hc IH]; cbn [Collection.update_one].
  - constructor.
  - destruct (matches q d).
    + cbn [fst]. constructor; [apply Hupd, Hd | exact Hc].
    + destruct (Collection.update_one q upd c) as [c' n]. cbn [fst] in *.
      constructor; assumption.
Qed.

Lemma delete_one_Forall (P : doc -> Prop) (q : query) (c : list doc) :
  Forall P c -> Forall P (fst (Collection.delete_one q c)).
Proof.
  induction 1 as [| d c Hd Hc IH]; cbn [Collection.delete_one].
  - constructor.
  - destruct (matches q d); [exact Hc |].
    destruct (Collection.delete_one q c) as [c' n]. cbn [fst] in *.
    constructor; assumption.
Qed.

(** The title among the fields of an update, when there is one, is not
    empty. *)
Lemma update_fields_title (title message expiration_date start_date : option string) :
  let upd := update_fields title message expiration_date start_date in
  upd !! "title" = None
  \/ exists s, upd !! "title" = Some (VStr s) /\ String.eqb s "" = false.
Proof.
  cbv zeta. unfold update_fields.
  destruct (truthy (of_param title)) eqn:Ht.
  - destruct title as [t |]; [| discriminate]. right. exists t. split.
    + cbn [of_param].
      destruct (truthy (of_param message)), (truthy (of_param expiration_date)),
        start_date as [s |]; try destruct (truthy (VStr s));
        repeat (rewrite lookup_insert_ne by discriminate); apply lookup_insert_eq.
    + cbn [of_param truthy] in Ht. apply negb_true_iff, Ht.
  - left.
    destruct (truthy (of_param message)), (truthy (of_param expiration_date)),
      start_date as [s |]; try destruct (truthy (VStr s));
      repeat (rewrite lookup_insert_ne by discriminate); apply lookup_empty.
Qed.

(** Writing the fields of an update keeps a document titled. *)
Lemma update_keeps_titled (x : value)
    (title message expiration_date start_date : option string) (d : doc) :
  titled d = true ->
  titled (<["updated_at" := x]>
            (update_fields title message expiration_date start_date) ∪ d)
  = true.
Proof.
  intros Hd. unfold titled. rewrite lookup_union.
  rewrite lookup_insert_ne by discriminate.
  destruct (update_fields_title title message expiration_date start_date)
    as [-> | (s & -> & Hs)].
  - rewrite (left_id None _). exact Hd.
  - destruct (d !! "title"); cbn; rewrite Hs; reflexivity.
Qed.

(** What an update leaves in the collection: the write of its fields in
    one document, or nothing. *)
Lemma update_announcement_store (w : world) (now : Date.datetime)
    (announcement_id : string)
    (title message expiration_date start_date username : option string) :
  let w' := snd (update_announcement now announcement_id title message
                   expiration_date start_date username w) in
  announcements_collection w' = announcements_collection w
  \/ exists obj_id,
       announcements_collection w'
       = fst (Collection.update_one (by_id obj_id)
                (<["updated_at" := VStr (Date.isoformat now)]>
                   (update_fields title message expiration_date start_date))
                (announcements_collection w)).
Proof.
  cbv zeta.
  destruct (update_announcement now announcement_id title message
              expiration_date start_date username w) as [[r | e] w'] eqn:H.
  - right.
    destruct (update_announcement_ok_inv _ _ _ _ _ _ _ _ _ _ H)
      as (obj_id & d & Hk & Hid & Hfind).
    rewrite (update_announcement_run _ _ _ _ _ _ _ _ _ _ Hk Hid Hfind) in H.
    apply update_outcome_ok_inv in H; [| exact Hfind].
    destruct H as (_ & _ & _ & Hstore & _).
    exists obj_id. exact Hstore.
  - left. exact (update_raise_unchanged _ _ _ _ _ _ _ _ _ _ H).
Qed.

Lemma delete_announcement_store (w : world) (announcement_id : string)
    (username : option string) :
  let w' := snd (delete_announcement announcement_id username w) in
  announcements_collection w' = announcements_collection w
  \/ exists obj_id,
       announcements_collection w'
       = fst (Collection.delete_one (by_id obj_id) (announcements_collection w)).
Proof.
  cbv zeta. destruct (known_teacher w username) eqn:Hk.
  - destruct (ObjectId announcement_id) as [obj_id |] eqn:Hid.
    + right. exists obj_id.
      rewrite (delete_announcement_run _ _ _ _ Hk Hid). reflexivity.
    + left. unfold delete_announcement. rewrite gate_passes by exact Hk.
      rewrite Hid. reflexivity.
  - unfold delete_announcement.
    match goal with
    | |- context [bind (verify_teacher username) ?k w] =>
        destruct (gate_refuses username k w Hk) as (e & w' & -> & _ & Ha & _)
    end.
    left. exact Ha.
Qed.

(** One request keeps every stored document titled, a create request
    provided that its title is not empty. *)
Lemma serve_keeps_titled (rq : request) (w : world) :
  create_titled rq ->
  Forall (fun d => titled d = true) (announcements_collection w) ->
  Forall (fun d => titled d = true) (announcements_collection (serve rq w)).
Proof.
  intros Hrq Hw. destruct rq; cbn [serve create_titled] in *.
  - exact Hw.
  - rewrite get_all_announcements_store. exact Hw.
  - destruct (create_announcement_store w now new_id title message
                expiration_date start_date username) as [-> | (d & -> & Hd)];
      [exact Hw |].
    apply Forall_app. split; [exact Hw |]. constructor; [| constructor].
    unfold titled. rewrite Hd. apply negb_true_iff, String.eqb_neq, Hrq.
  - destruct (update_announcement_store w now announcement_id title message
                expiration_date start_date username) as [-> | (o & ->)];
      [exact Hw |].
    apply update_one_Forall; [| exact Hw].
    intros d. apply update_keeps_titled.
  - destruct (delete_announcement_store w announcement_id username)
      as [-> | (o & ->)]; [exact Hw |].
    apply delete_one_Forall, Hw.
Qed.

(** C7, as the code has it. Create stores the title it is given without
    checking it, and update never writes an empty title (an empty title is
    read as omitted). So, starting from a collection whose documents all
    have a non-empty title, every document reached through requests whose
    create calls carry a non-empty title has a non-empty title. *)
Theorem C7_titles_stay_nonempty (w0 w : world) :
  Forall (fun d => titled d = true) (announcements_collection w0) ->
  reachable create_titled w0 w ->
  Forall (fun d => titled d = true) (announcements_collection w).
Proof.
  intros H0. induction 1 as [| w rq _ IH Hrq].
  - exact H0.
  - apply serve_keeps_titled; assumption.
Qed.

Lemma C7_titles_stay_nonempty_witness :
  Forall (fun d => titled d = true)
    (announcements_collection
       (serve (Update Sample.may21 Sample.id1_str (Some "") (Some "Moved")
                 None None (Some "ms_jones"))
          (serve (Create Sample.may20 Sample.id1 "Exam Week"
                    "Finals start Monday" "2025-06-01" (Some "2025-05-20")
                    (Some "ms_jones"))
             Sample.empty))).
Proof.
  apply (C7_titles_stay_nonempty Sample.empty).
  - constructor.
  - apply reach_step; [apply reach_step; [apply reach_start |] |].
    + cbn. discriminate.
    + exact I.
Defined.

(** The claim C7 as it is worded fails: create accepts an empty title and
    stores a document whose title is empty. *)
Lemma C7_create_accepts_empty_title :
  let created := create_announcement Sample.may20 Sample.id1 ""
                   "Finals start Monday" "2025-06-01" None (Some "ms_jones")
                   Sample.empty in
  (exists r, fst created = Ok r /\ r !! "title" = Some (VStr ""))
  /\ exists d, announcements_collection (snd created) = [d]
               /\ d !! "title" = Some (VStr "")
               /\ titled d = false.
Proof.
  intros created. split.
  - apply returned_ex. vm_refl.
  - destruct (only_ex (announcements_collection (snd created)) "title"
                (VStr "")) as (d & Hc & Hd); [vm_refl |].
    exists d. split; [exact Hc |]. split; [exact Hd |].
    unfold titled. rewrite Hd. reflexivity.
Qed.

(** ** Date formats *)

(** Create refuses an expiration date that does not parse. *)
Lemma create_bad_expiration (w : world) (now : Date.datetime) (new_id : list Z)
    (title message expiration_date : string)
    (start_date username : option string) :
  known_teacher w username = true ->
  Date.strptime expiration_date = None ->
  exists e,
    fst (create_announcement now new_id title message expiration_date
           start_date username w) = Raise e
    /\ InvalidDateFormat e = true.
Proof.
  intros Hk He. unfold create_announcement. rewrite gate_passes by exact Hk.
  rewrite He. eexists. split; reflexivity.
Qed.

(** Create refuses a start date, given and not empty, that does not parse. *)
Lemma create_bad_start (w : world) (now : Date.datetime) (new_id : list Z)
    (title message expiration_date start_date : string)
    (username : option string) (exp_date : Date.datetime) :
  known_teacher w username = true ->
  Date.strptime expiration_date = Some exp_date ->
  start_date <> "" ->
  Date.strptime start_date = None ->
  exists e,
    fst (create_announcement now new_id title message expiration_date
           (Some start_date) username w) = Raise e
    /\ InvalidDateFormat e = true.
Proof.
  intros Hk He Hne Hs. unfold create_announcement.
  rewrite gate_passes by exact Hk. rewrite He. cbn [of_param truthy py_str].
  apply String.eqb_neq in Hne. rewrite Hne, Hs. cbn [negb].
  eexists. split; reflexivity.
Qed.

(** Update refuses a date field, given and not empty, that does not
    parse. *)
Lemma update_bad_date (w : world) (now : Date.datetime)
    (announcement_id : string)
    (title message expiration_date start_date username : option string)
    (obj_id : list Z) (announcement : doc) :
  known_teacher w username = true ->
  ObjectId announcement_id = Some obj_id ->
  Collection.find_one (by_id obj_id) (announcements_collection w)
  = Some announcement ->
  (exists s, expiration_date = Some s /\ s <> "" /\ Date.strptime s = None)
  \/ (exists s, start_date = Some s /\ s <> "" /\ Date.strptime s = None) ->
  exists e,
    fst (update_announcement now announcement_id title message expiration_date
           start_date username w) = Raise e
    /\ InvalidDateFormat e = true.
Proof.
  intros Hk Hid Hfind Hbad.
  rewrite (update_announcement_run _ _ _ _ _ _ _ _ _ _ Hk Hid Hfind).
  unfold update_outcome.
  assert (Hf : exists e, format_error expiration_date start_date = Some e
                         /\ InvalidDateFormat e = true).
  { unfold format_error.
    destruct Hbad as [(s & -> & Hne & Hs) | (s & -> & Hne & Hs)].
    - cbn [of_param truthy py_str]. apply String.eqb_neq in Hne.
      rewrite Hne, Hs. eexists. split; reflexivity.
    - apply String.eqb_neq in Hne.
      destruct (truthy (of_param expiration_date));
        [destruct (Date.strptime (py_str (of_param expiration_date))) |];
        cbn [truthy]; rewrite ?Hne, ?Hs; eexists; split; reflexivity. }
  destruct Hf as (e & -> & He). exists e. split; [reflexivity | exact He].
Qed.

(** C6, at the failing input. [strptime] takes a month and a day of one
    digit, so create and update accept ["2025-6-1"], which is not of the
    shape YYYY-MM-DD, and store it as given. Compared as a string with
    today's date it is then out of order: on 1 October 2025 the
    announcement that expired on 1 June is still listed. *)
Theorem C6_unpadded_date_accepted :
  let created := create_announcement Sample.may20 Sample.id1 "Sports Day"
                   "Bring water" "2025-6-1" (Some "2025-05-01")
                   (Some "ms_jones") Sample.empty in
  let updated := update_announcement Sample.may20 Sample.id1_str None None
                   (Some "2025-6-1") None (Some "ms_jones") Sample.one in
  Date.fixed_width "2025-6-1" = false
  /\ Date.strptime "2025-6-1" = Some (Date.mkdatetime 2025 6 1 0 0 0 0)
  /\ (exists r, fst created = Ok r
                /\ r !! "expiration_date" = Some (VStr "2025-6-1"))
  /\ (exists r, fst updated = Ok r
                /\ r !! "expiration_date" = Some (VStr "2025-6-1"))
  /\ Date.ltb (Date.mkdatetime 2025 6 1 0 0 0 0) Sample.oct1 = true
  /\ String.leb (Date.strftime Sample.oct1) "2025-6-1" = true
  /\ exists d, fst (get_active_announcements Sample.oct1 (snd created)) = Ok [d]
               /\ d !! "expiration_date" = Some (VStr "2025-6-1").
Proof.
  intros created updated.
  split; [vm_refl |]. split; [vm_refl |].
  split; [apply returned_ex; vm_refl |].
  split; [apply returned_ex; vm_refl |].
  split; [vm_refl |]. split; [vm_refl |].
  apply only_listed_ex. vm_refl.
Qed.

(** *** Dates of the shape YYYY-MM-DD compare as strings *)

Lemma digit_bounds (c : ascii) :
  Date.is_digit c = true -> 0 <= Date.digit_val c <= 9.
Proof.
  unfold Date.is_digit, Date.digit_val. intros [H1 H2]%andb_prop.
  apply Z.leb_le in H1, H2. lia.
Qed.

Lemma digit_compare (a b : ascii) :
  Ascii.compare a b = (Date.digit_val a ?= Date.digit_val b).
Proof.
  unfold Ascii.compare, Date.digit_val, nat_of_ascii. rewrite !N_nat_Z.
  destruct (N.compare_spec (N_of_ascii a) (N_of_ascii b)),
    (Z.compare_spec (Z.of_N (N_of_ascii a) - 48) (Z.of_N (N_of_ascii b) - 48));
    try reflexivity; lia.
Qed.

Lemma is_char_eq (k c : ascii) :
  Date.is_char (String k EmptyString) c = true -> c = k.
Proof. cbn [Date.is_char]. intros H. apply Ascii.eqb_eq in H. congruence. Qed.

Lemma dash_not_digit (c : ascii) :
  Date.is_digit c = true -> Date.is_char "-" c = false.
Proof.
  intros Hd. destruct (Date.is_char "-" c) eqn:Hc; [| reflexivity].
  apply is_char_eq in Hc. subst c. discriminate Hd.
Qed.

Lemma space_not_digit (c : ascii) :
  Date.is_digit c = true -> Date.is_char " " c = false.
Proof.
  intros Hd. destruct (Date.is_char " " c) eqn:Hc; [| reflexivity].
  apply is_char_eq in Hc. subst c. discriminate Hd.
Qed.

(** The date read from a string of the shape YYYY-MM-DD has the numbers
    its digits spell. *)
Lemma strptime_fixed_width (y1 y2 y3 y4 c1 m1 m2 c2 d1 d2 : ascii)
    (t : Date.datetime) :
  let s := String y1 (String y2 (String y3 (String y4 (String c1 (String m1
             (String m2 (String c2 (String d1 (String d2 EmptyString))))))))) in
  Date.fixed_width s = true ->
  Date.strptime s = Some t ->
  t = Date.mkdatetime
        (1000 * Date.digit_val y1 + 100 * Date.digit_val y2
         + 10 * Date.digit_val y3 + Date.digit_val y4)
        (10 * Date.digit_val m1 + Date.digit_val m2)
        (10 * Date.digit_val d1 + Date.digit_val d2) 0 0 0 0.
Proof.
  cbv zeta. cbn [Date.fixed_width].
  intros H. do 9 (apply andb_prop in H; destruct H as [H ?]).
  unfold Date.strptime. cbn [Date.parse_Y].
  repeat match goal with
         | Hd : Date.is_digit _ = true |- _ => rewrite Hd
         end.
  cbn [andb].
  match goal with
  | Hc : Date.is_char "-" c1 = true |- _ => rewrite Hc
  end.
  cbn [Date.parse_m].
  match goal with
  | Hc : Date.is_char "-" c2 = true |- _ => rewrite Hc
  end.
  rewrite !andb_true_r.
  rewrite (dash_not_digit m2) by assumption. rewrite andb_false_r.
  assert (Hd : forall d,
    Date.parse_d (String d1 (String d2 EmptyString)) = Some d ->
    d = 10 * Date.digit_val d1 + Date.digit_val d2).
  { cbn [Date.parse_d]. intros d.
    destruct (Date.is_char "3" d1) eqn:Ec3.
    - apply is_char_eq in Ec3. subst d1.
      destruct (Date.in_range 0 1 d2); cbn [andb].
      + intros [= <-]. reflexivity.
      + destruct (Date.in_range 1 2 "3" && Date.is_digit d2) eqn:Hx;
          [discriminate Hx |].
        cbn. intros Hn. discriminate Hn.
    - cbn [andb].
      destruct (Date.in_range 1 2 d1 && Date.is_digit d2); [intros [= <-]; reflexivity |].
      destruct (Date.is_char "0" d1) eqn:Ec0.
      + apply is_char_eq in Ec0. subst d1.
        destruct (Date.in_range 1 9 d2); cbn [andb].
        * intros [= <-]. reflexivity.
        * cbn. intros Hn. discriminate Hn.
      + cbn [andb]. rewrite (space_not_digit d1) by assumption.
        cbn [andb]. intros Hn. discriminate Hn. }
  destruct (Date.is_char "1" m1) eqn:Em1.
  - apply is_char_eq in Em1. subst m1.
    destruct (Date.in_range 0 2 m2); cbn [andb].
    + destruct (Date.parse_d _) as [d |]; [| discriminate].
      specialize (Hd d eq_refl). subst d.
      destruct (_ && _); [| discriminate]. intros [= <-]. reflexivity.
    + cbn. intros Hn. discriminate Hn.
  - cbn [andb]. destruct (Date.is_char "0" m1) eqn:Em0.
    + apply is_char_eq in Em0. subst m1.
      destruct (Date.in_range 1 9 m2); cbn [andb].
      * destruct (Date.parse_d _) as [d |]; [| discriminate].
        specialize (Hd d eq_refl). subst d.
        destruct (_ && _); [| discriminate]. intros [= <-]. reflexivity.
      * intros Hn. discriminate Hn.
    + cbn [andb]. intros Hn. discriminate Hn.
Qed.

Lemma fixed_width_inv (s : string) :
  Date.fixed_width s = true ->
  exists y1 y2 y3 y4 c1 m1 m2 c2 d1 d2 : ascii,
    s = String y1 (String y2 (String y3 (String y4 (String c1 (String m1
          (String m2 (String c2 (String d1 (String d2 EmptyString))))))))).
Proof.
  intros H.
  do 10 (destruct s as [| ? s]; [discriminate H |]).
  destruct s; [| discriminate H].
  repeat eexists.
Qed.

Ltac order_leaf :=
  repeat match goal with
         | |- context [?x <? ?y] => destruct (Z.ltb_spec x y); try lia
         | |- context [?x =? ?y] => destruct (Z.eqb_spec x y); try lia
         end;
  reflexivity.

(** Two dates of the shape YYYY-MM-DD compare as strings the way they
    compare as dates. *)
Lemma fixed_width_order (s1 s2 : string) (t1 t2 : Date.datetime) :
  Date.fixed_width s1 = true -> Date.fixed_width s2 = true ->
  Date.strptime s1 = Some t1 -> Date.strptime s2 = Some t2 ->
  String.leb s1 s2 = negb (Date.ltb t2 t1).
Proof.
  intros F1 F2 P1 P2.
  destruct (fixed_width_inv _ F1) as (a1 & a2 & a3 & a4 & ac & a5 & a6 & ad & a7 & a8 & ->).
  destruct (fixed_width_inv _ F2) as (b1 & b2 & b3 & b4 & bc & b5 & b6 & bd & b7 & b8 & ->).
  apply strptime_fixed_width in P1; [| exact F1].
  apply strptime_fixed_width in P2; [| exact F2].
  subst t1 t2. cbn [Date.fixed_width] in F1, F2.
  do 9 (apply andb_prop in F1; destruct F1 as [F1 ?]).
  do 9 (apply andb_prop in F2; destruct F2 as [F2 ?]).
  repeat match goal with
         | Hc : Date.is_char "-" _ = true |- _ => apply is_char_eq in Hc; subst
         end.
  repeat match goal with
         | Hd : Date.is_digit _ = true |- _ => apply digit_bounds in Hd
         end.
  unfold String.leb. cbn [String.compare]. rewrite !digit_compare.
  change (Date.digit_val "-" ?= Date.digit_val "-") with Eq. cbv iota.
  unfold Date.ltb, Date.to_tuple.
  cbn [Date.lex_ltb Date.year Date.month Date.day Date.hour Date.minute
       Date.second Date.microsecond].
  generalize dependent (Date.digit_val a1). intros x1 ?.
  generalize dependent (Date.digit_val a2). intros x2 ?.
  generalize dependent (Date.digit_val a3). intros x3 ?.
  generalize dependent (Date.digit_val a4). intros x4 ?.
  generalize dependent (Date.digit_val a5). intros x5 ?.
  generalize dependent (Date.digit_val a6). intros x6 ?.
  generalize dependent (Date.digit_val a7). intros x7 ?.
  generalize dependent (Date.digit_val a8). intros x8 ?.
  generalize dependent (Date.digit_val b1). intros z1 ?.
  generalize dependent (Date.digit_val b2). intros z2 ?.
  generalize dependent (Date.digit_val b3). intros z3 ?.
  generalize dependent (Date.digit_val b4). intros z4 ?.
  generalize dependent (Date.digit_val b5). intros z5 ?.
  generalize dependent (Date.digit_val b6). intros z6 ?.
  generalize dependent (Date.digit_val b7). intros z7 ?.
  generalize dependent (Date.digit_val b8). intros z8 ?.
  destruct (Z.compare_spec x1 z1); [| order_leaf | order_leaf].
  destruct (Z.compare_spec x2 z2); [| order_leaf | order_leaf].
  destruct (Z.compare_spec x3 z3); [| order_leaf | order_leaf].
  destruct (Z.compare_spec x4 z4); [| order_leaf | order_leaf].
  destruct (Z.compare_spec x5 z5); [| order_leaf | order_leaf].
  destruct (Z.compare_spec x6 z6); [| order_leaf | order_leaf].
  destruct (Z.compare_spec x7 z7); [| order_leaf | order_leaf].
  destruct (Z.compare_spec x8 z8); order_leaf.
Qed.

(** *** Today's date as a string *)

Lemma digit_char_code (d : Z) :
  Z.of_nat (nat_of_ascii (Date.digit_char d)) = 48 + d mod 10.
Proof.
  unfold Date.digit_char. pose proof (Z.mod_pos_bound d 10 ltac:(lia)).
  rewrite nat_ascii_embedding by lia. lia.
Qed.

Lemma digit_char_digit (d : Z) : Date.is_digit (Date.digit_char d) = true.
Proof.
  unfold Date.is_digit. rewrite digit_char_code.
  pose proof (Z.mod_pos_bound d 10 ltac:(lia)).
  apply andb_true_intro. split; apply Z.leb_le; lia.
Qed.

Lemma digit_char_val (d : Z) : Date.digit_val (Date.digit_char d) = d mod 10.
Proof. unfold Date.digit_val. rewrite digit_char_code. lia. Qed.

(** On digits, a test against a given digit is a test of the value. *)
Lemma is_char_digit (k : Z) (c : ascii) :
  0 <= k <= 9 ->
  Date.is_digit c = true ->
  Date.is_char (String (Date.digit_char k) EmptyString) c
  = (Date.digit_val c =? k).
Proof.
  intros Hk Hc. cbn [Date.is_char].
  destruct (Ascii.eqb_spec (Date.digit_char k) c) as [<- | Hne].
  - rewrite digit_char_val, Z.mod_small by lia. symmetry. apply Z.eqb_refl.
  - symmetry. apply Z.eqb_neq. intros Heq. apply Hne.
    apply digit_bounds in Hc.
    rewrite <- (ascii_nat_embedding c), <- (ascii_nat_embedding (Date.digit_char k)).
    f_equal. apply Nat2Z.inj. rewrite digit_char_code.
    unfold Date.digit_val in *. rewrite Z.mod_small by lia. lia.
Qed.

Lemma in_range_digit (lo hi : Z) (c : ascii) :
  Date.is_digit c = true ->
  Date.in_range lo hi c
  = (lo <=? Date.digit_val c) && (Date.digit_val c <=? hi).
Proof. intros H. unfold Date.in_range. rewrite H. reflexivity. Qed.

Lemma days_in_month_bounds (y m : Z) : 28 <= Date.days_in_month y m <= 31.
Proof.
  unfold Date.days_in_month.
  destruct (m =? 2); [destruct (Date.is_leap y); lia |].
  destruct ((m =? 4) || (m =? 6) || (m =? 9) || (m =? 11)); lia.
Qed.

(** A string of the shape YYYY-MM-DD whose digits spell a calendar date
    is read as that date. *)
Lemma strptime_of_digits (y1 y2 y3 y4 m1 m2 d1 d2 : ascii) :
  let Y := 1000 * Date.digit_val y1 + 100 * Date.digit_val y2
           + 10 * Date.digit_val y3 + Date.digit_val y4 in
  let M := 10 * Date.digit_val m1 + Date.digit_val m2 in
  let D := 10 * Date.digit_val d1 + Date.digit_val d2 in
  Date.is_digit y1 = true -> Date.is_digit y2 = true ->
  Date.is_digit y3 = true -> Date.is_digit y4 = true ->
  Date.is_digit m1 = true -> Date.is_digit m2 = true ->
  Date.is_digit d1 = true -> Date.is_digit d2 = true ->
  1 <= Y -> 1 <= M <= 12 -> 1 <= D <= Date.days_in_month Y M ->
  Date.strptime
    (String y1 (String y2 (String y3 (String y4 (String "-" (String m1
       (String m2 (String "-" (String d1 (String d2 EmptyString))))))))))
  = Some (Date.mkdatetime Y M D 0 0 0 0).
Proof.
  intros Y M D Hy1 Hy2 Hy3 Hy4 Hm1 Hm2 Hd1 Hd2 HY HM HD.
  pose proof (days_in_month_bounds Y M) as Hdim.
  pose proof (digit_bounds _ Hm1). pose proof (digit_bounds _ Hm2).
  pose proof (digit_bounds _ Hd1). pose proof (digit_bounds _ Hd2).
  unfold Date.strptime. cbn [Date.parse_Y]. rewrite Hy1, Hy2, Hy3, Hy4.
  cbn [andb]. fold Y.
  change (Date.is_char "-" "-") with true. cbv iota.
  cbn [Date.parse_m]. change (Date.is_char "-" "-") with true.
  rewrite !andb_true_r.
  change "1" with (String (Date.digit_char 1) EmptyString).
  change "0" with (String (Date.digit_char 0) EmptyString).
  rewrite !is_char_digit by (assumption || lia).
  rewrite !in_range_digit by assumption.
  assert (Hday : Date.parse_d (String d1 (String d2 EmptyString)) = Some D).
  { cbn [Date.parse_d].
    change "3" with (String (Date.digit_char 3) EmptyString).
    change "0" with (String (Date.digit_char 0) EmptyString).
    rewrite !is_char_digit by (assumption || lia).
    rewrite !in_range_digit by assumption. rewrite Hd2. subst D.
    destruct (Z.eqb_spec (Date.digit_val d1) 3) as [E3 | N3].
    - destruct (Z.leb_spec (Date.digit_val d2) 1); cbn [andb];
        [rewrite E3 | lia].
      destruct (Z.leb_spec 0 (Date.digit_val d2)); [reflexivity | lia].
    - cbn [andb].
      destruct (Z.leb_spec 1 (Date.digit_val d1)),
        (Z.leb_spec (Date.digit_val d1) 2); cbn [andb]; try reflexivity; try lia.
      destruct (Z.eqb_spec (Date.digit_val d1) 0) as [E0 | N0]; [| lia].
      cbn [andb].
      destruct (Z.leb_spec 1 (Date.digit_val d2)),
        (Z.leb_spec (Date.digit_val d2) 9); cbn [andb]; try lia.
      rewrite E0. reflexivity. }
  assert (Hchk : (1 <=? Y) && (D <=? Date.days_in_month Y M) = true).
  { apply andb_true_intro. split; apply Z.leb_le; lia. }
  subst M.
  destruct (Z.eqb_spec (Date.digit_val m1) 1) as [E1 | N1].
  - destruct (Z.leb_spec 0 (Date.digit_val m2)),
      (Z.leb_spec (Date.digit_val m2) 2); cbn [andb]; try lia.
    rewrite Hday. rewrite E1 in Hchk |- *.
    replace (10 + Date.digit_val m2) with (10 * 1 + Date.digit_val m2) by lia.
    rewrite Hchk. reflexivity.
  - cbn [andb].
    destruct (Z.eqb_spec (Date.digit_val m1) 0) as [E0 | N0]; [| lia].
    destruct (Z.leb_spec 1 (Date.digit_val m2)),
      (Z.leb_spec (Date.digit_val m2) 9); cbn [andb]; try lia.
    rewrite Hday. rewrite E0 in Hchk |- *.
    replace (Date.digit_val m2) with (10 * 0 + Date.digit_val m2) at 1 2 by lia.
    rewrite Hchk. reflexivity.
Qed.

Lemma valid_date_inv (t : Date.datetime) :
  valid_date t = true ->
  1 <= Date.year t <= 9999 /\ 1 <= Date.month t <= 12
  /\ 1 <= Date.day t <= Date.days_in_month (Date.year t) (Date.month t).
Proof.
  unfold valid_date. intros H.
  do 5 (apply andb_prop in H; destruct H as [H ?]).
  repeat match goal with
         | Hb : (_ <=? _) = true |- _ => apply Z.leb_le in Hb
         end.
  lia.
Qed.

Lemma dash_append (s : string) : String.append "-" s = String "-" s.
Proof. reflexivity. Qed.

(** The string [strftime] gives for a calendar day has the shape
    YYYY-MM-DD and is read back by [strptime] as that day. *)
Lemma strftime_strptime (t : Date.datetime) :
  valid_date t = true ->
  Date.fixed_width (Date.strftime t) = true
  /\ Date.strptime (Date.strftime t) = Some (date_of t).
Proof.
  intros H. apply valid_date_inv in H. destruct H as (HY & HM & HD).
  pose proof (days_in_month_bounds (Date.year t) (Date.month t)) as Hdim.
  unfold Date.strftime. cbn [Date.pad]. rewrite !dash_append. split.
  - cbn [Date.fixed_width]. rewrite !digit_char_digit. reflexivity.
  - assert (EY : 1000 * Date.digit_val (Date.digit_char (Date.year t / 10 / 10 / 10))
                 + 100 * Date.digit_val (Date.digit_char (Date.year t / 10 / 10))
                 + 10 * Date.digit_val (Date.digit_char (Date.year t / 10))
                 + Date.digit_val (Date.digit_char (Date.year t))
                 = Date.year t).
    { rewrite !digit_char_val. Z.div_mod_to_equations. lia. }
    assert (EM : 10 * Date.digit_val (Date.digit_char (Date.month t / 10))
                 + Date.digit_val (Date.digit_char (Date.month t))
                 = Date.month t).
    { rewrite !digit_char_val. Z.div_mod_to_equations. lia. }
    assert (ED : 10 * Date.digit_val (Date.digit_char (Date.day t / 10))
                 + Date.digit_val (Date.digit_char (Date.day t))
                 = Date.day t).
    { rewrite !digit_char_val. Z.div_mod_to_equations. lia. }
    rewrite strptime_of_digits; try apply digit_char_digit.
    + cbv zeta. rewrite EY, EM, ED. reflexivity.
    + cbv zeta. rewrite EY. lia.
    + cbv zeta. rewrite EM. lia.
    + cbv zeta. rewrite EY, EM, ED. lia.
Qed.

(** * Further properties of the endpoints *)

(** ** Listings *)

Lemma stringify_id_other (d : doc) (k : string) :
  k <> "_id" -> stringify_id d !! k = d !! k.
Proof.
  intros Hk. unfold stringify_id. destruct (d !! "_id"); [| reflexivity].
  apply lookup_insert_ne. congruence.
Qed.

Lemma active_stringify (today : string) (d : doc) :
  matches (active_query today) (stringify_id d) = matches (active_query today) d.
Proof.
  unfold active_query. cbn [matches].
  rewrite !stringify_id_other by discriminate. reflexivity.
Qed.

(** Membership in the public listing, for a document of the collection. *)
Lemma listed_iff (now : Date.datetime) (w : world) (d : doc) :
  In d (announcements_collection w) ->
  exists l,
    fst (get_active_announcements now w) = Ok l
    /\ (In (stringify_id d) l
        <-> matches (active_query (Date.strftime now)) d = true).
Proof.
  intros Hin. rewrite get_active_announcements_run. cbn [fst].
  eexists. split; [reflexivity |]. rewrite in_map_iff. split.
  - intros (d' & Heq & Hd'). apply filter_In in Hd'. destruct Hd' as [_ Hm].
    rewrite <- active_stringify, <- Heq, active_stringify. exact Hm.
  - intros Hm. exists d. split; [reflexivity |].
    apply filter_In. split; assumption.
Qed.

(** The listing filter on dates of the shape YYYY-MM-DD, read as dates. *)
Lemma active_query_dates (now : Date.datetime) (d : doc) (e : string)
    (te : Date.datetime) :
  valid_date now = true ->
  d !! "expiration_date" = Some (VStr e) ->
  Date.fixed_width e = true -> Date.strptime e = Some te ->
  matches (QGte "expiration_date" (VStr (Date.strftime now))) d
  = date_leb (date_of now) te.
Proof.
  intros Hnow He Fe Pe. cbn [matches]. rewrite He, value_leb_str.
  destruct (strftime_strptime now Hnow) as [Fn Pn].
  apply (fixed_width_order _ _ _ _ Fn Fe Pn Pe).
Qed.

(** X1. An announcement whose start and expiration dates are stored in
    the shape YYYY-MM-DD is in the public listing exactly on the days from
    its start date to its expiration date, both included. *)
Theorem X1_listed_between_dates (w : world) (now : Date.datetime) (d : doc)
    (s e : string) (ts te : Date.datetime) :
  valid_date now = true ->
  In d (announcements_collection w) ->
  d !! "start_date" = Some (VStr s) ->
  d !! "expiration_date" = Some (VStr e) ->
  Date.fixed_width s = true -> Date.strptime s = Some ts ->
  Date.fixed_width e = true -> Date.strptime e = Some te ->
  exists l,
    fst (get_active_announcements now w) = Ok l
    /\ (In (stringify_id d) l
        <-> date_leb ts (date_of now) = true
            /\ date_leb (date_of now) te = true).
Proof.
  intros Hnow Hin Hs He Fs Ps Fe Pe.
  destruct (listed_iff now w d Hin) as (l & Hl & Hiff).
  exists l. split; [exact Hl |]. rewrite Hiff.
  unfold active_query. cbn [matches].
  change (match d !! "expiration_date" with
          | Some x => value_leb (VStr (Date.strftime now)) x
          | None => false
          end)
    with (matches (QGte "expiration_date" (VStr (Date.strftime now))) d).
  rewrite (active_query_dates now d e te Hnow He Fe Pe).
  rewrite Hs, value_leb_str. cbn [orb].
  destruct (strftime_strptime now Hnow) as [Fn Pn].
  rewrite (fixed_width_order _ _ _ _ Fs Fn Ps Pn).
  fold (date_leb ts (date_of now)). apply andb_true_iff.
Qed.

Lemma X1_listed_between_dates_witness :
  exists l,
    fst (get_active_announcements Sample.may20 Sample.one) = Ok l
    /\ (In (stringify_id Sample.exam_week) l
        <-> date_leb (Date.mkdatetime 2025 5 1 0 0 0 0) (date_of Sample.may20)
            = true
            /\ date_leb (date_of Sample.may20) (Date.mkdatetime 2025 6 1 0 0 0 0)
               = true).
Proof.
  apply (X1_listed_between_dates Sample.one Sample.may20 Sample.exam_week
           "2025-05-01" "2025-06-01"); try reflexivity.
  left. reflexivity.
Defined.

(** X2. An announcement stored without the field [start_date], with an
    expiration date of the shape YYYY-MM-DD, is in the public listing
    exactly on the days up to its expiration date, included. *)
Theorem X2_listed_until_expiration (w : world) (now : Date.datetime) (d : doc)
    (e : string) (te : Date.datetime) :
  valid_date now = true ->
  In d (announcements_collection w) ->
  d !! "start_date" = None ->
  d !! "expiration_date" = Some (VStr e) ->
  Date.fixed_width e = true -> Date.strptime e = Some te ->
  exists l,
    fst (get_active_announcements now w) = Ok l
    /\ (In (stringify_id d) l <-> date_leb (date_of now) te = true).
Proof.
  intros Hnow Hin Hs He Fe Pe.
  destruct (listed_iff now w d Hin) as (l & Hl & Hiff).
  exists l. split; [exact Hl |]. rewrite Hiff.
  rewrite (absent_start_active _ e d Hs He).
  destruct (strftime_strptime now Hnow) as [Fn Pn].
  rewrite (fixed_width_order _ _ _ _ Fn Fe Pn Pe). reflexivity.
Qed.

Lemma X2_listed_until_expiration_witness :
  exists l,
    fst (get_active_announcements Sample.oct1
           (mkworld [Sample.exam_week_no_start] Sample.teachers [])) = Ok l
    /\ (In (stringify_id Sample.exam_week_no_start) l
        <-> date_leb (date_of Sample.oct1) (Date.mkdatetime 2025 6 1 0 0 0 0)
            = true).
Proof.
  apply (X2_listed_until_expiration
           (mkworld [Sample.exam_week_no_start] Sample.teachers [])
           Sample.oct1 Sample.exam_week_no_start "2025-06-01");
    try reflexivity.
  left. reflexivity.
Defined.

Lemma find_all (c : list doc) : Collection.find QAll c = c.
Proof.
  unfold Collection.find. induction c as [| d c IH]; [reflexivity |].
  cbn [List.filter]. change (matches QAll d) with true. cbv iota.
  rewrite IH. reflexivity.
Qed.

(** X3. For a caller that passes the gate, list-all returns every
    document of the collection, in the order of the collection, with its
    identifier as a string, and leaves the collection as it was; whatever
    the public listing returns at any time is among them. *)
Theorem X3_list_all_complete (w : world) (username : option string)
    (now : Date.datetime) :
  known_teacher w username = true ->
  fst (get_all_announcements username w)
  = Ok (List.map stringify_id (announcements_collection w))
  /\ announcements_collection (snd (get_all_announcements username w))
     = announcements_collection w
  /\ forall active,
       fst (get_active_announcements now w) = Ok active ->
       incl active (List.map stringify_id (announcements_collection w)).
Proof.
  intros Hk. unfold get_all_announcements at 1.
  rewrite gate_passes by exact Hk. unfold bind, find, ret. cbn [fst].
  cbn [announcements_collection record]. rewrite find_all.
  split; [reflexivity |].
  split; [apply get_all_announcements_store |].
  intros active. rewrite get_active_announcements_run. cbn [fst].
  intros [= <-]. intros d (d' & <- & Hd')%in_map_iff.
  apply in_map, (proj1 (filter_In _ _ _) Hd').
Qed.

Lemma X3_list_all_complete_witness :
  fst (get_all_announcements (Some "ms_jones") Sample.one)
  = Ok [stringify_id Sample.exam_week].
Proof.
  apply (X3_list_all_complete Sample.one (Some "ms_jones") Sample.may20).
  reflexivity.
Defined.

(** ** Identifiers *)

Lemma hex_char_val (n : Z) :
  0 <= n < 16 ->
  Oid.hex_val (Oid.hex_char n) = Some n /\ Oid.is_space (Oid.hex_char n) = false.
Proof.
  intros H.
  assert (Hall : Forall (fun k : nat =>
                           Oid.hex_val (Oid.hex_char (Z.of_nat k))
                           = Some (Z.of_nat k)
                           /\ Oid.is_space (Oid.hex_char (Z.of_nat k)) = false)
                   (seq 0 16)).
  { repeat (constructor; [split; reflexivity |]). constructor. }
  rewrite Forall_forall in Hall. specialize (Hall (Z.to_nat n)).
  rewrite Z2Nat.id in Hall by lia. apply Hall, elem_of_seq. lia.
Qed.

Lemma fromhex_hex (o : list Z) :
  forallb (fun b => (0 <=? b) && (b <? 256)) o = true ->
  Oid.fromhex (Oid.hex o) = Some o.
Proof.
  induction o as [| b o IH]; [reflexivity |].
  cbn [forallb]. intros [[Hb1 Hb2]%andb_prop Ho]%andb_prop.
  apply Z.leb_le in Hb1. apply Z.ltb_lt in Hb2.
  cbn [Oid.hex Oid.fromhex].
  destruct (hex_char_val (b / 16)) as [Hv1 Hs1];
    [split; [apply Z.div_pos; lia | apply Z.div_lt_upper_bound; lia] |].
  destruct (hex_char_val (b mod 16)) as [Hv2 _];
    [apply Z.mod_pos_bound; lia |].
  rewrite Hs1, Hv1, Hv2, (IH Ho). f_equal. f_equal.
  pose proof (Z.div_mod b 16 ltac:(lia)). lia.
Qed.

Lemma length_hex (o : list Z) :
  String.length (Oid.hex o) = (2 * length o)%nat.
Proof.
  induction o as [| b o IH]; [reflexivity |].
  cbn [Oid.hex String.length length]. rewrite IH. lia.
Qed.

Lemma ObjectId_py_str (o : list Z) :
  oid_bytes o = true -> ObjectId (py_str (VOid o)) = Some o.
Proof.
  unfold oid_bytes. intros [Hlen Hb]%andb_prop. apply Nat.eqb_eq in Hlen.
  unfold ObjectId. cbn [py_str]. rewrite length_hex, Hlen. cbn [Nat.mul Nat.add Nat.eqb].
  apply fromhex_hex, Hb.
Qed.

(** X4. The string of an identifier of twelve bytes has 24 characters
    and is read back by [ObjectId] as that identifier: the [_id] that
    create and the listings return designates the stored document in
    update and delete. *)
Theorem X4_ObjectId_of_str (o : list Z) :
  oid_bytes o = true ->
  ObjectId (py_str (VOid o)) = Some o
  /\ String.length (py_str (VOid o)) = 24%nat.
Proof.
  intros H. split; [apply ObjectId_py_str, H |].
  unfold oid_bytes in H. apply andb_prop in H. destruct H as [Hlen _].
  apply Nat.eqb_eq in Hlen. cbn [py_str]. rewrite length_hex, Hlen. reflexivity.
Qed.

Lemma X4_ObjectId_of_str_witness :
  ObjectId (py_str (VOid Sample.id1)) = Some Sample.id1.
Proof. apply (X4_ObjectId_of_str Sample.id1). reflexivity. Defined.

(** ** Creation, further *)

(** The create endpoint past the gate and the date checks. *)
Lemma create_announcement_run (w : world) (now : Date.datetime)
    (new_id : list Z) (title message expiration_date : string)
    (start_date username : option string) (exp_date : Date.datetime) :
  known_teacher w username = true ->
  Date.strptime expiration_date = Some exp_date ->
  start_accepted start_date exp_date = true ->
  let announcement :=
    new_announcement now title message expiration_date start_date username in
  create_announcement now new_id title message expiration_date start_date
    username w
  = (Ok (<["_id" := VStr (py_str (VOid new_id))]> announcement),
     set_announcements
       (announcements_collection w ++ [<["_id" := VOid new_id]> announcement])
       (record (AnnInsertOne announcement)
          (record (TeachersFindOne (py_str (of_param username))) w))).
Proof.
  intros Hk He Hs. cbv zeta. unfold create_announcement.
  rewrite gate_passes by exact Hk. rewrite He.
  unfold start_accepted in Hs.
  destruct start_date as [s |]; cbn [of_param py_str].
  - destruct (truthy (VStr s)).
    + destruct (Date.strptime s) as [start |]; [| discriminate Hs].
      apply negb_true_iff in Hs. rewrite Hs. reflexivity.
    + reflexivity.
  - reflexivity.
Qed.

(** What a create call that succeeds tells about the request. *)
Lemma create_announcement_ok_inv (w w' : world) (now : Date.datetime)
    (new_id : list Z) (title message expiration_date : string)
    (start_date username : option string) (r : doc) :
  create_announcement now new_id title message expiration_date start_date
    username w = (Ok r, w') ->
  known_teacher w username = true
  /\ exists exp_date,
       Date.strptime expiration_date = Some exp_date
       /\ start_accepted start_date exp_date = true.
Proof.
  intros H. destruct (known_teacher w username) eqn:Hk.
  - split; [reflexivity |]. unfold create_announcement in H.
    rewrite gate_passes in H by exact Hk.
    destruct (Date.strptime expiration_date) as [exp_date |]; [| discriminate H].
    exists exp_date. split; [reflexivity |]. unfold start_accepted.
    destruct start_date as [s |]; [| reflexivity].
    cbn [of_param py_str] in H.
    destruct (truthy (VStr s)); [| reflexivity].
    destruct (Date.strptime s) as [start |]; [| discriminate H].
    unfold bind at 1 in H.
    destruct (Date.gtb start exp_date); [discriminate H | reflexivity].
  - unfold create_announcement in H.
    match type of H with
    | bind (verify_teacher username) ?k w = _ =>
        destruct (gate_refuses username k w Hk) as (e & w0 & Hr & _)
    end.
    rewrite Hr in H. discriminate.
Qed.

(** X5. Create succeeds when the caller passes the gate, the expiration
    date parses, and the start date is omitted, empty, or a date that
    parses and is not after the expiration date; for dates written in ASCII
    characters, where [Date.strptime] is [datetime.strptime], it succeeds in
    no other case. When it succeeds it returns the document built from its
    parameters, with [created_by] the caller, [created_at] the current
    timestamp and [_id] the string of the new identifier, and appends that
    document to the collection. *)
Theorem X5_create_succeeds (w : world) (now : Date.datetime)
    (new_id : list Z) (title message expiration_date : string)
    (start_date username : option string) :
  let out := create_announcement now new_id title message expiration_date
               start_date username w in
  let announcement :=
    new_announcement now title message expiration_date start_date username in
  (known_teacher w username = true ->
   (exists exp_date,
      Date.strptime expiration_date = Some exp_date
      /\ start_accepted start_date exp_date = true) ->
   exists r, fst out = Ok r)
  /\ (ascii_only expiration_date = true ->
      ascii_param start_date = true ->
      (exists r, fst out = Ok r) ->
      known_teacher w username = true
      /\ exists exp_date,
           Date.strptime expiration_date = Some exp_date
           /\ start_accepted start_date exp_date = true)
  /\ (forall r, fst out = Ok r ->
        r = <["_id" := VStr (py_str (VOid new_id))]> announcement
        /\ r !! "created_by" = Some (of_param username)
        /\ r !! "created_at" = Some (VStr (Date.isoformat now))
        /\ announcements_collection (snd out)
           = (announcements_collection w
              ++ [<["_id" := VOid new_id]> announcement])%list).
Proof.
  cbv zeta. split; [| split].
  - intros Hk (exp_date & He & Hs).
    rewrite (create_announcement_run _ _ _ _ _ _ _ _ _ Hk He Hs).
    eexists. reflexivity.
  - intros _ _ [r Hr].
    destruct (create_announcement now new_id title message expiration_date
                start_date username w) as [o w'] eqn:H.
    cbn [fst] in Hr. subst o.
    exact (create_announcement_ok_inv _ _ _ _ _ _ _ _ _ _ H).
  - intros r Hr.
    destruct (create_announcement now new_id title message expiration_date
                start_date username w) as [o w'] eqn:H.
    cbn [fst] in Hr. subst o.
    destruct (create_announcement_ok_inv _ _ _ _ _ _ _ _ _ _ H)
      as (Hk & exp_date & He & Hs).
    rewrite (create_announcement_run _ _ _ _ _ _ _ _ _ Hk He Hs) in H.
    injection H as <- <-. split; [reflexivity |].
    split; [reflexivity |]. split; reflexivity.
Qed.

Lemma X5_create_succeeds_witness :
  (exists r,
     fst (create_announcement Sample.may20 Sample.id1 "Exam Week"
            "Finals start Monday" "2025-06-01" (Some "2025-05-20")
            (Some "ms_jones") Sample.empty) = Ok r)
  /\ known_teacher Sample.empty (Some "ms_jones") = true.
Proof.
  assert (Hok : exists r,
            fst (create_announcement Sample.may20 Sample.id1 "Exam Week"
                   "Finals start Monday" "2025-06-01" (Some "2025-05-20")
                   (Some "ms_jones") Sample.empty) = Ok r).
  { apply (proj1 (X5_create_succeeds Sample.empty Sample.may20 Sample.id1
                    "Exam Week" "Finals start Monday" "2025-06-01"
                    (Some "2025-05-20") (Some "ms_jones"))).
    - reflexivity.
    - exists (Date.mkdatetime 2025 6 1 0 0 0 0). split; reflexivity. }
  split; [exact Hok |].
  apply (proj1 (proj2 (X5_create_succeeds Sample.empty Sample.may20 Sample.id1
                         "Exam Week" "Finals start Monday" "2025-06-01"
                         (Some "2025-05-20") (Some "ms_jones")))
           eq_refl eq_refl Hok).
Defined.

Lemma fresh_id_absent (o : list Z) (c : list doc) :
  fresh_id o c -> Forall (fun d => matches (by_id o) d = false) c.
Proof.
  unfold fresh_id. intros H. eapply Forall_impl; [exact H |].
  intros d Hd. cbn beta in *.
  destruct (matches (by_id o) d) eqn:Hm; [| reflexivity].
  apply matches_by_id in Hm. contradiction.
Qed.

Lemma delete_one_last (q : query) (c : list doc) (d : doc) :
  Forall (fun d' => matches q d' = false) c ->
  matches q d = true ->
  Collection.delete_one q (c ++ [d]) = (c, 1).
Proof.
  intros Hc Hd. induction Hc as [| d0 c Hd0 _ IH]; cbn.
  - rewrite Hd. reflexivity.
  - rewrite Hd0, IH. reflexivity.
Qed.

(** X6. Create, then delete with the identifier that create returned:
    when the new identifier has twelve bytes and no stored document has it,
    the delete succeeds and the collection is again what it was before the
    create. *)
Theorem X6_create_then_delete (w w1 : world) (now : Date.datetime)
    (new_id : list Z) (title message expiration_date : string)
    (start_date username : option string) (r : doc) :
  oid_bytes new_id = true ->
  fresh_id new_id (announcements_collection w) ->
  create_announcement now new_id title message expiration_date start_date
    username w = (Ok r, w1) ->
  let out := delete_announcement (py_str (dict_get r "_id")) username w1 in
  fst out = Ok {[ "message" := VStr "Announcement deleted successfully" ]}
  /\ announcements_collection (snd out) = announcements_collection w.
Proof.
  intros Hb Hfresh H. cbv zeta.
  destruct (create_announcement_ok_inv _ _ _ _ _ _ _ _ _ _ H)
    as (Hk & exp_date & He & Hs).
  rewrite (create_announcement_run _ _ _ _ _ _ _ _ _ Hk He Hs) in H.
  injection H as <- <-.
  unfold dict_get. rewrite lookup_insert_eq. cbn [default py_str].
  rewrite (delete_announcement_run _ _ _ new_id).
  - cbn [announcements_collection set_announcements record].
    rewrite delete_one_last.
    + cbn [fst snd]. split; reflexivity.
    + apply fresh_id_absent, Hfresh.
    + apply matches_by_id, lookup_insert_eq.
  - exact Hk.
  - apply (ObjectId_py_str new_id Hb).
Qed.

Lemma X6_create_then_delete_witness :
  let created := create_announcement Sample.may20 Sample.id2 "Sports Day"
                   "Bring water" "2025-06-15" None (Some "ms_jones")
                   Sample.one in
  exists r,
    fst created = Ok r
    /\ announcements_collection
         (snd (delete_announcement (py_str (dict_get r "_id"))
                 (Some "ms_jones") (snd created)))
       = [Sample.exam_week].
Proof.
  intros created.
  destruct (ok_pair created) as [r Hr]; [vm_refl |].
  exists r. split; [rewrite Hr; reflexivity |].
  refine (proj2 (X6_create_then_delete Sample.one (snd created) Sample.may20
                   Sample.id2 "Sports Day" "Bring water" "2025-06-15" None
                   (Some "ms_jones") r eq_refl _ Hr)).
  constructor; [| constructor]. intros H.
  assert (Hid : Sample.exam_week !! "_id" = Some (VOid Sample.id1)) by vm_refl.
  rewrite Hid in H. discriminate H.
Defined.

(** ** Requests that fail *)

Lemma create_raise_unchanged (w w' : world) (now : Date.datetime)
    (new_id : list Z) (title message expiration_date : string)
    (start_date username : option string) (e : HTTPException) :
  create_announcement now new_id title message expiration_date start_date
    username w = (Raise e, w') ->
  announcements_collection w' = announcements_collection w.
Proof.
  intros H. unfold create_announcement in H.
  destruct (known_teacher w username) eqn:Hk.
  - rewrite gate_passes in H by exact Hk.
    destruct (Date.strptime expiration_date);
      [| injection H as _ <-; reflexivity].
    destruct (truthy (of_param start_date)).
    + destruct (Date.strptime (py_str (of_param start_date)));
        [| injection H as _ <-; reflexivity].
      unfold bind at 1 in H. destruct (Date.gtb _ _).
      * injection H as _ <-. reflexivity.
      * discriminate H.
    + discriminate H.
  - match type of H with
    | bind (verify_teacher username) ?k w = _ =>
        destruct (gate_refuses username k w Hk) as (e0 & w0 & Hr & _ & Ha & _)
    end.
    rewrite Hr in H. injection H as _ <-. exact Ha.
Qed.

Lemma delete_one_none_removed (q : query) (c : list doc) :
  snd (Collection.delete_one q c) = 0 -> fst (Collection.delete_one q c) = c.
Proof.
  induction c as [| d c IH]; cbn [Collection.delete_one].
  - reflexivity.
  - destruct (matches q d); [discriminate |].
    destruct (Collection.delete_one q c) as [c' n]. cbn [fst snd] in *.
    intros Hn. rewrite (IH Hn). reflexivity.
Qed.

Lemma delete_raise_unchanged (w w' : world) (announcement_id : string)
    (username : option string) (e : HTTPException) :
  delete_announcement announcement_id username w = (Raise e, w') ->
  announcements_collection w' = announcements_collection w.
Proof.
  intros H. destruct (known_teacher w username) eqn:Hk.
  - destruct (ObjectId announcement_id) as [obj_id |] eqn:Hid.
    + rewrite (delete_announcement_run _ _ _ _ Hk Hid) in H. cbv zeta in H.
      destruct (snd (Collection.delete_one _ _) =? 0) eqn:Hn;
        [| discriminate H].
      injection H as _ <-. cbn [announcements_collection set_announcements].
      apply delete_one_none_removed, Z.eqb_eq, Hn.
    + unfold delete_announcement in H. rewrite gate_passes in H by exact Hk.
      rewrite Hid in H. injection H as _ <-. reflexivity.
  - unfold delete_announcement in H.
    match type of H with
    | bind (verify_teacher username) ?k w = _ =>
        destruct (gate_refuses username k w Hk) as (e0 & w0 & Hr & _ & Ha & _)
    end.
    rewrite Hr in H. injection H as _ <-. exact Ha.
Qed.

(** ** The identifiers stay unique *)

Lemma update_one_ids (q : query) (upd : doc) (c : list doc) :
  upd !! "_id" = None ->
  List.map (fun d : doc => d !! "_id") (fst (Collection.update_one q upd c))
  = List.map (fun d : doc => d !! "_id") c.
Proof.
  intros Hid. induction c as [| d c IH]; [reflexivity |].
  cbn [Collection.update_one]. destruct (matches q d).
  - cbn [fst List.map]. rewrite (set_keeps_id _ _ Hid). reflexivity.
  - destruct (Collection.update_one q upd c) as [c' n]. cbn [fst List.map] in *.
    rewrite IH. reflexivity.
Qed.

Lemma delete_one_incl (q : query) (c : list doc) :
  incl (fst (Collection.delete_one q c)) c.
Proof.
  induction c as [| d c IH]; cbn [Collection.delete_one].
  - apply incl_refl.
  - destruct (matches q d); [apply incl_tl, incl_refl |].
    destruct (Collection.delete_one q c) as [c' n]. cbn [fst] in *.
    apply incl_cons; [left; reflexivity | apply incl_tl, IH].
Qed.

Lemma delete_one_unique (q : query) (c : list doc) :
  unique_ids c -> unique_ids (fst (Collection.delete_one q c)).
Proof.
  unfold unique_ids. induction c as [| d c IH]; cbn [Collection.delete_one].
  - intros H. exact H.
  - cbn [List.map]. intros [Hnotin Hnd]%NoDup_cons.
    destruct (matches q d); [exact Hnd |].
    pose proof (delete_one_incl q c) as Hincl. specialize (IH Hnd).
    destruct (Collection.delete_one q c) as [c' n]. cbn [fst List.map] in *.
    apply NoDup_cons. split; [| exact IH].
    intros Hin. apply Hnotin.
    apply list_elem_of_In in Hin. apply in_map_iff in Hin.
    destruct Hin as (d' & Heq & Hd').
    apply list_elem_of_In, in_map_iff. exists d'. split; [exact Heq |].
    apply Hincl, Hd'.
Qed.

Lemma insert_one_unique (o : list Z) (d : doc) (c : list doc) :
  unique_ids c -> fresh_id o c ->
  unique_ids (c ++ [<["_id" := VOid o]> d]).
Proof.
  unfold unique_ids, fresh_id. intros Hnd Hfresh.
  rewrite List.map_app. cbn [List.map]. rewrite lookup_insert_eq.
  apply NoDup_app. split; [exact Hnd |]. split; [| apply NoDup_singleton].
  intros x Hx Hx'. apply list_elem_of_In in Hx'. destruct Hx' as [<- | []].
  apply list_elem_of_In, in_map_iff in Hx. destruct Hx as (d' & Heq & Hd').
  rewrite Forall_forall in Hfresh.
  apply (Hfresh d'); [apply list_elem_of_In, Hd' | exact Heq].
Qed.

(** X7. Every request keeps the identifiers of the stored documents
    distinct, a create request provided that the identifier it comes with
    is not that of a stored document. *)
Theorem X7_serve_keeps_unique_ids (rq : request) (w : world) :
  unique_ids (announcements_collection w) ->
  request_fresh rq w ->
  unique_ids (announcements_collection (serve rq w)).
Proof.
  intros Hu Hf. destruct rq; cbn [serve request_fresh] in *.
  - exact Hu.
  - rewrite get_all_announcements_store. exact Hu.
  - destruct (create_announcement now new_id title message expiration_date
                start_date username w) as [[r | e] w'] eqn:H; cbn [snd].
    + destruct (create_announcement_ok_inv _ _ _ _ _ _ _ _ _ _ H)
        as (Hk & exp_date & He & Hs).
      rewrite (create_announcement_run _ _ _ _ _ _ _ _ _ Hk He Hs) in H.
      injection H as _ <-. cbn [announcements_collection set_announcements].
      apply insert_one_unique; assumption.
    + rewrite (create_raise_unchanged _ _ _ _ _ _ _ _ _ _ H). exact Hu.
  - destruct (update_announcement_store w now announcement_id title message
                expiration_date start_date username) as [-> | (o & ->)];
      [exact Hu |].
    unfold unique_ids. rewrite update_one_ids; [exact Hu |].
    apply stamped_no_id, update_fields_no_id.
  - destruct (delete_announcement_store w announcement_id username)
      as [-> | (o & ->)]; [exact Hu |].
    apply delete_one_unique, Hu.
Qed.

Lemma X7_serve_keeps_unique_ids_witness :
  unique_ids
    (announcements_collection
       (serve (Create Sample.may20 Sample.id2 "Sports Day" "Bring water"
                 "2025-06-15" None (Some "ms_jones"))
          Sample.one)).
Proof.
  apply (X7_serve_keeps_unique_ids
           (Create Sample.may20 Sample.id2 "Sports Day" "Bring water"
              "2025-06-15" None (Some "ms_jones")) Sample.one).
  - unfold unique_ids. cbn [List.map Sample.one announcements_collection].
    apply NoDup_singleton.
  - constructor; [| constructor]. vm_compute. discriminate.
Defined.

(** X8. A request that raises, whatever the endpoint and the error,
    leaves the announcement collection as it was. *)
Theorem X8_failure_changes_nothing (rq : request) (w : world)
    (e : HTTPException) :
  failure rq w = Some e ->
  announcements_collection (serve rq w) = announcements_collection w.
Proof.
  destruct rq; cbn [failure serve].
  - discriminate.
  - intros _. apply get_all_announcements_store.
  - destruct (create_announcement _ _ _ _ _ _ _ w) as [[r | e0] w'] eqn:H;
      cbn [fst snd]; [discriminate |].
    intros _. exact (create_raise_unchanged _ _ _ _ _ _ _ _ _ _ H).
  - destruct (update_announcement _ _ _ _ _ _ _ w) as [[r | e0] w'] eqn:H;
      cbn [fst snd]; [discriminate |].
    intros _. exact (update_raise_unchanged _ _ _ _ _ _ _ _ _ _ H).
  - destruct (delete_announcement _ _ w) as [[r | e0] w'] eqn:H;
      cbn [fst snd]; [discriminate |].
    intros _. exact (delete_raise_unchanged _ _ _ _ _ H).
Qed.

Lemma X8_failure_changes_nothing_witness :
  announcements_collection
    (serve (Update Sample.may20 Sample.id1_str (Some "Exam Fortnight") None
              (Some "2025-13-01") None (Some "ms_jones"))
       Sample.one)
  = [Sample.exam_week].
Proof.
  apply (X8_failure_changes_nothing
           (Update Sample.may20 Sample.id1_str (Some "Exam Fortnight") None
              (Some "2025-13-01") None (Some "ms_jones"))
           Sample.one
           (mkHTTPException 400 "Invalid expiration_date format. Use YYYY-MM-DD")).
  vm_compute. reflexivity.
Defined.

(** ** Identifiers that designate nothing *)

(** X9. For a caller that passes the gate: an identifier that
    [ObjectId] refuses makes update and delete fail with [InvalidId]
    before any call to the announcement collection; a well-formed
    identifier that no document has makes update fail with [NotFound]
    after the lookup, its only call, and the collection is as it was. *)
Theorem X9_bad_identifier (w : world) (now : Date.datetime)
    (announcement_id : string)
    (title message expiration_date start_date username : option string) :
  known_teacher w username = true ->
  let w1 := record (TeachersFindOne (py_str (of_param username))) w in
  (ObjectId announcement_id = None ->
   update_announcement now announcement_id title message expiration_date
     start_date username w = (Raise InvalidId, w1)
   /\ delete_announcement announcement_id username w = (Raise InvalidId, w1)
   /\ announcement_calls w1 = announcement_calls w)
  /\ (forall obj_id,
        ObjectId announcement_id = Some obj_id ->
        Collection.find_one (by_id obj_id) (announcements_collection w) = None ->
        let out := update_announcement now announcement_id title message
                     expiration_date start_date username w in
        fst out = Raise NotFound
        /\ announcements_collection (snd out) = announcements_collection w
        /\ announcement_calls (snd out)
           = (announcement_calls w ++ [AnnFindOne (by_id obj_id)])%list).
Proof.
  intros Hk w1. split.
  - intros Hid. unfold update_announcement, delete_announcement.
    rewrite !gate_passes by exact Hk. rewrite Hid.
    split; [reflexivity |]. split; [reflexivity |].
    apply record_teacher_calls.
  - intros obj_id Hid Hfind. cbv zeta.
    rewrite (update_announcement_absent _ _ _ _ _ _ _ _ _ Hk Hid Hfind).
    cbn [fst snd]. split; [reflexivity |]. split; [reflexivity |].
    unfold announcement_calls, record. cbn [calls].
    rewrite !List.filter_app. cbn [List.filter on_announcements].
    rewrite app_nil_r. reflexivity.
Qed.

Lemma X9_bad_identifier_witness :
  update_announcement Sample.may20 "exam-week" (Some "Exam Fortnight") None
    None None (Some "ms_jones") Sample.one
  = (Raise InvalidId, record (TeachersFindOne "ms_jones") Sample.one)
  /\ fst (update_announcement Sample.may20 Sample.id2_str
            (Some "Exam Fortnight") None None None (Some "ms_jones")
            Sample.one)
     = Raise NotFound.
Proof.
  pose proof (X9_bad_identifier Sample.one Sample.may20 "exam-week"
                (Some "Exam Fortnight") None None None (Some "ms_jones")
                eq_refl) as [H1 _].
  pose proof (X9_bad_identifier Sample.one Sample.may20 Sample.id2_str
                (Some "Exam Fortnight") None None None (Some "ms_jones")
                eq_refl) as [_ H2].
  split.
  - apply (H1 eq_refl).
  - apply (H2 Sample.id2 eq_refl eq_refl).
Defined.

(** ** What an update writes *)

Lemma update_fields_lookup (title message expiration_date start_date : option string)
    (k : string) :
  update_fields title message expiration_date start_date !! k
  = if String.eqb k "start_date" then
      match start_date with
      | Some s => Some (if truthy (VStr s) then VStr s else VNone)
      | None => None
      end
    else if String.eqb k "expiration_date" then
      (if truthy (of_param expiration_date) then Some (of_param expiration_date)
       else None)
    else if String.eqb k "message" then
      (if truthy (of_param message) then Some (of_param message) else None)
    else if String.eqb k "title" then
      (if truthy (of_param title) then Some (of_param title) else None)
    else None.
Proof.
  unfold update_fields.
  destruct (String.eqb_spec k "start_date") as [-> | N1].
  { destruct start_date as [s |].
    - destruct (truthy (VStr s)); apply lookup_insert_eq.
    - destruct (truthy (of_param title)), (truthy (of_param message)),
        (truthy (of_param expiration_date));
        repeat (rewrite lookup_insert_ne by discriminate); apply lookup_empty. }
  assert (Hstart : forall m : doc,
    match start_date with
    | Some s => if truthy (VStr s) then <["start_date" := VStr s]> m
                else <["start_date" := VNone]> m
    | None => m
    end !! k = m !! k).
  { intros m. destruct start_date as [s |]; [| reflexivity].
    destruct (truthy (VStr s)); apply lookup_insert_ne; congruence. }
  rewrite Hstart.
  destruct (String.eqb_spec k "expiration_date") as [-> | N2].
  { destruct (truthy (of_param expiration_date)); [apply lookup_insert_eq |].
    destruct (truthy (of_param title)), (truthy (of_param message));
      repeat (rewrite lookup_insert_ne by discriminate); apply lookup_empty. }
  assert (Hexp : forall m : doc,
    (if truthy (of_param expiration_date)
     then <["expiration_date" := of_param expiration_date]> m else m) !! k
    = m !! k).
  { intros m. destruct (truthy (of_param expiration_date)); [| reflexivity].
    apply lookup_insert_ne; congruence. }
  rewrite Hexp.
  destruct (String.eqb_spec k "message") as [-> | N3].
  { destruct (truthy (of_param message)); [apply lookup_insert_eq |].
    destruct (truthy (of_param title));
      repeat (rewrite lookup_insert_ne by discriminate); apply lookup_empty. }
  assert (Hmsg : forall m : doc,
    (if truthy (of_param message)
     then <["message" := of_param message]> m else m) !! k = m !! k).
  { intros m. destruct (truthy (of_param message)); [| reflexivity].
    apply lookup_insert_ne; congruence. }
  rewrite Hmsg.
  destruct (String.eqb_spec k "title") as [-> | N4].
  { destruct (truthy (of_param title)); [apply lookup_insert_eq | apply lookup_empty]. }
  destruct (truthy (of_param title));
    [rewrite lookup_insert_ne by congruence |]; apply lookup_empty.
Qed.

Lemma written_lookup (x : value) (upd old : doc) (k : string) :
  k <> "updated_at" ->
  (<["updated_at" := x]> upd ∪ old) !! k
  = match upd !! k with
    | Some v => Some v
    | None => old !! k
    end.
Proof.
  intros Hk. rewrite lookup_union, lookup_insert_ne by congruence.
  destruct (upd !! k), (old !! k); reflexivity.
Qed.

(** X10. A successful update replaces the fields given and keeps the
    others: title, message and expiration date take the value given when
    it is not empty and keep the stored one otherwise; the start date is
    kept when omitted, set to null when given empty, and set to the value
    given otherwise; [updated_at] is the current timestamp; every other
    field, [_id], [created_by] and [created_at] among them, is as it was.
    The document returned is the stored one with its identifier as a
    string. *)
Theorem X10_update_writes_given_fields (w w' : world) (now : Date.datetime)
    (announcement_id : string)
    (title message expiration_date start_date username : option string)
    (r : doc) :
  update_announcement now announcement_id title message expiration_date
    start_date username w = (Ok r, w') ->
  exists (obj_id : list Z) (old stored : doc),
    ObjectId announcement_id = Some obj_id
    /\ Collection.find_one (by_id obj_id) (announcements_collection w) = Some old
    /\ Collection.find_one (by_id obj_id) (announcements_collection w')
       = Some stored
    /\ r = stringify_id stored
    /\ stored !! "title"
       = (if truthy (of_param title) then Some (of_param title)
          else old !! "title")
    /\ stored !! "message"
       = (if truthy (of_param message) then Some (of_param message)
          else old !! "message")
    /\ stored !! "expiration_date"
       = (if truthy (of_param expiration_date)
          then Some (of_param expiration_date)
          else old !! "expiration_date")
    /\ stored !! "start_date"
       = match start_date with
         | Some s => Some (if truthy (VStr s) then VStr s else VNone)
         | None => old !! "start_date"
         end
    /\ stored !! "updated_at" = Some (VStr (Date.isoformat now))
    /\ forall k : string,
         k <> "title" -> k <> "message" -> k <> "expiration_date" ->
         k <> "start_date" -> k <> "updated_at" ->
         stored !! k = old !! k.
Proof.
  intros H.
  destruct (update_announcement_ok_inv _ _ _ _ _ _ _ _ _ _ H)
    as (obj_id & old & Hk & Hid & Hfind).
  rewrite (update_announcement_run _ _ _ _ _ _ _ _ _ _ Hk Hid Hfind) in H.
  apply update_outcome_ok_inv in H; [| exact Hfind].
  destruct H as (_ & _ & Hr & _ & _ & Hstored).
  exists obj_id, old. eexists.
  split; [exact Hid |]. split; [exact Hfind |]. split; [exact Hstored |].
  destruct (find_one_some _ _ _ Hfind) as [_ Hm]. apply matches_by_id in Hm.
  assert (Hsid : (<["updated_at" := VStr (Date.isoformat now)]>
                    (update_fields title message expiration_date start_date)
                  ∪ old) !! "_id" = Some (VOid obj_id)).
  { rewrite set_keeps_id by (apply stamped_no_id, update_fields_no_id).
    exact Hm. }
  split.
  { rewrite Hr. unfold stringify_id, dict_get. rewrite Hsid. reflexivity. }
  rewrite !written_lookup by discriminate.
  rewrite !update_fields_lookup. cbn [String.eqb Ascii.eqb Bool.eqb].
  split; [destruct (truthy (of_param title)); reflexivity |].
  split; [destruct (truthy (of_param message)); reflexivity |].
  split; [destruct (truthy (of_param expiration_date)); reflexivity |].
  split; [destruct start_date; reflexivity |].
  split; [apply stamp_written |].
  intros k N1 N2 N3 N4 N5. rewrite written_lookup by exact N5.
  rewrite update_fields_lookup.
  apply String.eqb_neq in N1, N2, N3, N4. rewrite N1, N2, N3, N4. reflexivity.
Qed.

Lemma X10_update_writes_given_fields_witness :
  exists (old stored : doc),
    Collection.find_one (by_id Sample.id1)
      (announcements_collection
         (snd (update_announcement Sample.may20 Sample.id1_str
                 (Some "Exam Fortnight") (Some "") None (Some "2025-05-10")
                 (Some "ms_jones") Sample.one)))
    = Some stored
    /\ stored !! "title" = Some (VStr "Exam Fortnight")
    /\ stored !! "message" = old !! "message"
    /\ stored !! "start_date" = Some (VStr "2025-05-10")
    /\ stored !! "created_by" = old !! "created_by".
Proof.
  destruct (ok_pair (update_announcement Sample.may20 Sample.id1_str
                       (Some "Exam Fortnight") (Some "") None
                       (Some "2025-05-10") (Some "ms_jones") Sample.one))
    as [r Hr]; [vm_refl |].
  destruct (X10_update_writes_given_fields _ _ _ _ _ _ _ _ _ _ Hr)
    as (o & old & stored & Hid & _ & Hst & _ & Ht & Hm & _ & Hs & _ & Hk).
  assert (Ho : ObjectId Sample.id1_str = Some Sample.id1) by vm_refl.
  rewrite Ho in Hid. injection Hid as <-.
  exists old, stored. split; [exact Hst |].
  split; [exact Ht |]. split; [exact Hm |]. split; [exact Hs |].
  apply Hk; discriminate.
Defined.

(** ** What delete and update leave alone *)

Lemma delete_one_found (q : query) (c : list doc) (d : doc) :
  Collection.find_one q c = Some d ->
  snd (Collection.delete_one q c) = 1
  /\ S (length (fst (Collection.delete_one q c))) = length c.
Proof.
  unfold Collection.find_one. induction c as [| d0 c IH]; [discriminate |].
  cbn [List.find Collection.delete_one]. destruct (matches q d0).
  - intros _. split; reflexivity.
  - intros H. specialize (IH H).
    destruct (Collection.delete_one q c) as [c' n]. cbn [fst snd length] in *.
    destruct IH as [-> ->]. split; reflexivity.
Qed.

Lemma filter_none_matching (q : query) (c : list doc) :
  Forall (fun d => matches q d = false) c ->
  List.filter (fun x => negb (matches q x)) c = c.
Proof.
  induction 1 as [| d c Hd _ IH]; [reflexivity |].
  cbn [List.filter]. rewrite Hd, IH. reflexivity.
Qed.

(** With distinct identifiers, deleting by identifier removes every
    document that has it. *)
Lemma delete_one_filter (o : list Z) (c : list doc) :
  unique_ids c ->
  fst (Collection.delete_one (by_id o) c)
  = List.filter (fun x => negb (matches (by_id o) x)) c.
Proof.
  unfold unique_ids. induction c as [| d c IH]; [reflexivity |].
  cbn [List.map]. intros [Hnotin Hnd]%NoDup_cons.
  cbn [Collection.delete_one List.filter].
  destruct (matches (by_id o) d) eqn:Hm; cbn [negb fst].
  - symmetry. apply filter_none_matching, Forall_forall. intros d' Hin.
    destruct (matches (by_id o) d') eqn:Hm'; [| reflexivity].
    exfalso. apply Hnotin. apply matches_by_id in Hm, Hm'.
    rewrite Hm, <- Hm'. apply list_elem_of_In, in_map, list_elem_of_In, Hin.
  - specialize (IH Hnd).
    destruct (Collection.delete_one (by_id o) c) as [c' n]. cbn [fst] in *.
    rewrite IH. reflexivity.
Qed.

(** X11. For a known teacher, a well-formed identifier and a collection
    with distinct identifiers: deleting a document that exists returns the
    acknowledgement, removes that document and no other, in place, and the
    identifier then designates nothing. *)
Theorem X11_delete_removes_target (w : world) (announcement_id : string)
    (username : option string) (obj_id : list Z) (d : doc) :
  unique_ids (announcements_collection w) ->
  known_teacher w username = true ->
  ObjectId announcement_id = Some obj_id ->
  Collection.find_one (by_id obj_id) (announcements_collection w) = Some d ->
  let out := delete_announcement announcement_id username w in
  fst out = Ok {[ "message" := VStr "Announcement deleted successfully" ]}
  /\ announcements_collection (snd out)
     = List.filter (fun x => negb (matches (by_id obj_id) x))
         (announcements_collection w)
  /\ S (length (announcements_collection (snd out)))
     = length (announcements_collection w)
  /\ Collection.find_one (by_id obj_id) (announcements_collection (snd out))
     = None.
Proof.
  intros Hu Hk Hid Hfind. cbv zeta.
  rewrite (delete_announcement_run _ _ _ _ Hk Hid). cbv zeta.
  destruct (delete_one_found _ _ _ Hfind) as [Hn Hlen].
  rewrite Hn. cbn [Z.eqb fst snd announcements_collection set_announcements].
  split; [reflexivity |]. split; [apply delete_one_filter, Hu |].
  split; [exact Hlen | apply delete_one_gone, Hu].
Qed.

Lemma X11_delete_removes_target_witness :
  fst (delete_announcement Sample.id1_str (Some "ms_jones") Sample.one)
  = Ok {[ "message" := VStr "Announcement deleted successfully" ]}
  /\ Collection.find_one (by_id Sample.id1)
       (announcements_collection
          (snd (delete_announcement Sample.id1_str (Some "ms_jones")
                  Sample.one)))
     = None.
Proof.
  assert (Hu : unique_ids (announcements_collection Sample.one)).
  { unfold unique_ids. cbn [List.map Sample.one announcements_collection].
    apply NoDup_singleton. }
  assert (Hf : Collection.find_one (by_id Sample.id1)
                 (announcements_collection Sample.one)
               = Some Sample.exam_week) by vm_refl.
  assert (Hid : ObjectId Sample.id1_str = Some Sample.id1) by vm_refl.
  destruct (X11_delete_removes_target Sample.one Sample.id1_str
              (Some "ms_jones") Sample.id1 Sample.exam_week Hu eq_refl Hid Hf)
    as (H1 & _ & _ & H4).
  split; [exact H1 | exact H4].
Defined.

Lemma update_one_length (q : query) (upd : doc) (c : list doc) :
  length (fst (Collection.update_one q upd c)) = length c.
Proof.
  induction c as [| d c IH]; [reflexivity |].
  cbn [Collection.update_one]. destruct (matches q d); [reflexivity |].
  destruct (Collection.update_one q upd c) as [c' n]. cbn [fst length] in *.
  rewrite IH. reflexivity.
Qed.

Lemma update_one_other (q : query) (upd : doc) (c : list doc) (i : nat) (d : doc) :
  c !! i = Some d -> matches q d = false ->
  fst (Collection.update_one q upd c) !! i = Some d.
Proof.
  revert i. induction c as [| d0 c IH]; intros i Hi Hm; [discriminate Hi |].
  cbn [Collection.update_one]. destruct (matches q d0) eqn:Hm0.
  - destruct i as [| i]; cbn in Hi |- *; [| exact Hi].
    injection Hi as ->. congruence.
  - specialize (IH (pred i)).
    destruct (Collection.update_one q upd c) as [c' n]. cbn [fst] in *.
    destruct i as [| i]; cbn in Hi |- *; [exact Hi |].
    apply IH; assumption.
Qed.

(** X12. An update request, whether it succeeds or fails, keeps the
    number and the order of the stored documents, and leaves every
    document whose identifier is not the one requested exactly as it
    was. *)
Theorem X12_update_touches_one_document (w : world) (now : Date.datetime)
    (announcement_id : string)
    (title message expiration_date start_date username : option string) :
  let w' := serve (Update now announcement_id title message expiration_date
                     start_date username) w in
  length (announcements_collection w') = length (announcements_collection w)
  /\ forall (i : nat) (d : doc),
       announcements_collection w !! i = Some d ->
       d !! "_id" <> (VOid <$> ObjectId announcement_id) ->
       announcements_collection w' !! i = Some d.
Proof.
  cbv zeta. cbn [serve].
  destruct (update_announcement now announcement_id title message
              expiration_date start_date username w) as [[r | e] w'] eqn:H;
    cbn [snd].
  - destruct (update_announcement_ok_inv _ _ _ _ _ _ _ _ _ _ H)
      as (obj_id & old & Hk & Hid & Hfind).
    rewrite (update_announcement_run _ _ _ _ _ _ _ _ _ _ Hk Hid Hfind) in H.
    apply update_outcome_ok_inv in H; [| exact Hfind].
    destruct H as (_ & _ & _ & Hstore & _).
    cbn [announcements_collection record] in Hstore. rewrite Hstore.
    split; [apply update_one_length |].
    intros i d Hi Hne. apply update_one_other; [exact Hi |].
    destruct (matches (by_id obj_id) d) eqn:Hm; [| reflexivity].
    exfalso. apply Hne. rewrite Hid. apply matches_by_id, Hm.
  - rewrite (update_raise_unchanged _ _ _ _ _ _ _ _ _ _ H).
    split; [reflexivity |]. intros i d Hi _. exact Hi.
Qed.

Lemma X12_update_touches_one_document_witness :
  let w := mkworld [Sample.exam_week;
                    <["_id" := VOid Sample.id2]> Sample.exam_week_no_start]
             Sample.teachers [] in
  announcements_collection
    (serve (Update Sample.may20 Sample.id1_str (Some "Exam Fortnight") None
              None None (Some "ms_jones")) w) !! 1%nat
  = Some (<["_id" := VOid Sample.id2]> Sample.exam_week_no_start).
Proof.
  intros w.
  apply (proj2 (X12_update_touches_one_document w Sample.may20 Sample.id1_str
                  (Some "Exam Fortnight") None None None (Some "ms_jones"))).
  - reflexivity.
  - intros H.
    assert (H1 : (<["_id" := VOid Sample.id2]> Sample.exam_week_no_start) !! "_id"
                 = Some (VOid Sample.id2)) by apply lookup_insert_eq.
    assert (H2 : VOid <$> ObjectId Sample.id1_str = Some (VOid Sample.id1))
      by vm_refl.
    rewrite H1, H2 in H. discriminate H.
Defined.
